(** * The Event model of talawa-api (src/models/Event.ts)

    The source file declares a mongoose schema (eventSchema), hands it to
    mongoose, and exports the model registered under the name "Event".
    The development below embeds

    - the document shape [InterfaceEvent];
    - the schema, path by path, with the options written in the source
      (required, enum, default);
    - the part of mongoose that interprets those options when a document
      is built and validated: defaults are filled in for paths that are
      undefined, then every path runs its validators (the required
      validator first, then the enum validator) and the first failing
      validator of a path is reported under that path;
    - the model registry (mongoose.models) and the guarded export
      [models.Event || eventModel()].

    Values are taken after casting: a path of type Date holds a date, a
    path of type ObjectId holds an id, a path of type Number a number
    that is not NaN.  A path may also be undefined (the key was
    omitted) or null.  A raw value that does not cast (a string that is
    no ObjectId, a time out of range, NaN) is reported by mongoose as a
    CastError at its path; such candidates have no counterpart here,
    and every statement below is about candidates whose values cast
    and about the errors of the validators (required, enum).  The
    system-managed paths _id, createdAt and updatedAt carry no
    validator and are left out. *)

From Stdlib Require Import ZArith String List Bool.
From stdpp Require Import base numbers strings list gmap.

Local Open Scope string_scope.

(** ** Values of a path *)

Inductive field (A : Type) : Type :=
| Undefined
| Null
| Val (a : A).
Arguments Undefined {A}.
Arguments Null {A}.
Arguments Val {A} a.

(** JavaScript truthiness of a boolean path that may be missing. *)
Definition truthy (v : field bool) : bool :=
  match v with
  | Val b => b
  | _ => false
  end.

(** A Date after casting: its time value in milliseconds, within the
    8.64e15 either side of the epoch that a JavaScript Date can hold. *)
Definition Date : Type :=
  dsig (fun t : Z => (-8640000000000000 <= t <= 8640000000000000)%Z).
#[export] Instance Date_eq_dec : EqDecision Date.
Proof. unfold Date, dsig. apply _. Defined.
(** A Number after casting; NaN does not cast.  No validator of the
    schema looks at the number itself. *)
Definition Number := Qcanon.Qc.
(** An ObjectId after casting: twelve bytes, taken as a number below
    2^96.  A string casts to one when it is 24 hexadecimal digits. *)
Definition ObjectId : Type := dsig (fun n : N => (n < 2 ^ 96)%N).
#[export] Instance ObjectId_eq_dec : EqDecision ObjectId.
Proof. unfold ObjectId, dsig. apply _. Defined.

(** ** The document (interface InterfaceEvent, lines 11-38) *)

Record InterfaceEvent := {
  title : field string;
  description : field string;
  attendees : field string;
  location : field string;
  latitude : field Number;
  longitude : field Number;
  recurring : field bool;
  isRecurringEventException : field bool;
  isBaseRecurringEvent : field bool;
  recurrenceRuleId : field ObjectId;
  baseRecurringEventId : field ObjectId;
  allDay : field bool;
  startDate : field Date;
  endDate : field Date;
  startTime : field Date;
  endTime : field Date;
  recurrance : field string;
  isPublic : field bool;
  isRegisterable : field bool;
  creatorId : field ObjectId;
  admins : field (list (field ObjectId));
  organization : field ObjectId;
  status : field string;
}.

(** ** Schema types and their options *)

(** What a mongoose SchemaType contributes to validation: the equality
    used by the enum validator (indexOf) and checkRequired, the test the
    required validator applies to a value that is neither undefined nor
    null. *)
Class SchemaType (A : Type) := {
  schemaTypeEq :: EqDecision A;
  checkRequired : A -> bool;
}.

(** SchemaString.checkRequired: a string of non-zero length. *)
#[export] Instance SchemaString : SchemaType string :=
  {| checkRequired := fun s => negb (String.length s =? 0)%nat |}.
#[export] Instance SchemaBoolean : SchemaType bool :=
  {| checkRequired := fun _ => true |}.
#[export] Instance SchemaDate : SchemaType Date :=
  {| checkRequired := fun _ => true |}.
#[export] Instance SchemaNumber : SchemaType Number :=
  {| checkRequired := fun _ => true |}.
#[export] Instance SchemaObjectId : SchemaType ObjectId :=
  {| checkRequired := fun _ => true |}.

(** The three ways the source writes [required]: not at all, a boolean,
    or a function of the document ([this]). *)
Inductive RequiredOption :=
| RequiredUnset
| RequiredBool (b : bool)
| RequiredFn (f : InterfaceEvent -> bool).

Record SchemaTypeOptions (A : Type) := {
  required : RequiredOption;
  enum : option (list A);
  default : option A;
}.
Arguments required {A} _.
Arguments enum {A} _.
Arguments default {A} _.

(** ** The schema (lines 69-186) *)

(** The three required functions of the schema, each reading [this]. *)

(** startTime, lines 133-135: return !this.allDay *)
Definition startTime_required (this : InterfaceEvent) : bool :=
  negb (truthy (allDay this)).
(** endTime, lines 139-141: return !this.allDay *)
Definition endTime_required (this : InterfaceEvent) : bool :=
  negb (truthy (allDay this)).
(** recurrance, lines 145-147: return this.recurring *)
Definition recurrance_required (this : InterfaceEvent) : bool :=
  truthy (recurring this).

(** The two enumerations (lines 148 and 179). *)
Definition recurranceValues : list string :=
  ["ONCE"; "DAILY"; "WEEKLY"; "MONTHLY"; "YEARLY"].
Definition statusValues : list string :=
  ["ACTIVE"; "BLOCKED"; "DELETED"].

Module eventSchema.

Definition title : SchemaTypeOptions string :=
  {| required := RequiredBool true; enum := None; default := None |}.
Definition description : SchemaTypeOptions string :=
  {| required := RequiredBool true; enum := None; default := None |}.
Definition attendees : SchemaTypeOptions string :=
  {| required := RequiredBool false; enum := None; default := None |}.
Definition location : SchemaTypeOptions string :=
  {| required := RequiredUnset; enum := None; default := None |}.
Definition latitude : SchemaTypeOptions Number :=
  {| required := RequiredBool false; enum := None; default := None |}.
Definition longitude : SchemaTypeOptions Number :=
  {| required := RequiredBool false; enum := None; default := None |}.
Definition recurring : SchemaTypeOptions bool :=
  {| required := RequiredBool true; enum := None; default := Some false |}.
Definition isRecurringEventException : SchemaTypeOptions bool :=
  {| required := RequiredBool true; enum := None; default := Some false |}.
Definition isBaseRecurringEvent : SchemaTypeOptions bool :=
  {| required := RequiredBool true; enum := None; default := Some false |}.
Definition recurrenceRuleId : SchemaTypeOptions ObjectId :=
  {| required := RequiredBool false; enum := None; default := None |}.
Definition baseRecurringEventId : SchemaTypeOptions ObjectId :=
  {| required := RequiredBool false; enum := None; default := None |}.
Definition allDay : SchemaTypeOptions bool :=
  {| required := RequiredBool true; enum := None; default := None |}.
Definition startDate : SchemaTypeOptions Date :=
  {| required := RequiredBool true; enum := None; default := None |}.
Definition endDate : SchemaTypeOptions Date :=
  {| required := RequiredBool false; enum := None; default := None |}.
Definition startTime : SchemaTypeOptions Date :=
  {| required := RequiredFn startTime_required;
     enum := None; default := None |}.
Definition endTime : SchemaTypeOptions Date :=
  {| required := RequiredFn endTime_required;
     enum := None; default := None |}.
Definition recurrance : SchemaTypeOptions string :=
  {| required := RequiredFn recurrance_required;
     enum := Some recurranceValues;
     default := Some "ONCE" |}.
Definition isPublic : SchemaTypeOptions bool :=
  {| required := RequiredBool true; enum := None; default := None |}.
Definition isRegisterable : SchemaTypeOptions bool :=
  {| required := RequiredBool true; enum := None; default := None |}.
Definition creatorId : SchemaTypeOptions ObjectId :=
  {| required := RequiredBool true; enum := None; default := None |}.
(** The options of one entry of the admins array. *)
Definition admins : SchemaTypeOptions ObjectId :=
  {| required := RequiredBool true; enum := None; default := None |}.
Definition organization : SchemaTypeOptions ObjectId :=
  {| required := RequiredBool true; enum := None; default := None |}.
Definition status : SchemaTypeOptions string :=
  {| required := RequiredBool true;
     enum := Some statusValues;
     default := Some "ACTIVE" |}.

End eventSchema.

(** ** Validation of one path (mongoose SchemaType) *)

(** The kind mongoose records in a ValidatorError. *)
Inductive ValidatorKind := KindRequired | KindEnum.

#[export] Instance ValidatorKind_eq_dec : EqDecision ValidatorKind.
Proof. solve_decision. Defined.

(** A path of the document: a top-level key, or an entry of an array. *)
Inductive Path :=
| Key (name : string)
| Entry (name : string) (index : nat).

#[export] Instance Path_eq_dec : EqDecision Path.
Proof. solve_decision. Defined.

Record ValidatorError := {
  path : Path;
  kind : ValidatorKind;
}.

#[export] Instance ValidatorError_eq_dec : EqDecision ValidatorError.
Proof. solve_decision. Defined.

Section SchemaTypeValidation.

Context {A : Type} `{SchemaType A}.

(** A validator as mongoose stores it: its kind and its test, which is
    run with the document as [this]. *)
Record Validator := {
  validatorKind : ValidatorKind;
  validator : InterfaceEvent -> field A -> bool;
}.

(** The test behind a required path: undefined and null fail, any
    other value is left to the schema type. *)
Definition checkRequiredValue (v : field A) : bool :=
  match v with
  | Val a => checkRequired a
  | _ => false
  end.

(** SchemaType.required: a required function that returns a falsy
    value switches the test off for this document. *)
Definition requiredValidator (r : RequiredOption) : list Validator :=
  match r with
  | RequiredUnset => []
  | RequiredBool false => []
  | RequiredBool true =>
      [ {| validatorKind := KindRequired;
           validator := fun _ v => checkRequiredValue v |} ]
  | RequiredFn f =>
      [ {| validatorKind := KindRequired;
           validator := fun this v => negb (f this) || checkRequiredValue v |} ]
  end.

(** The enum validator: undefined and null pass, any other value has
    to be one of the listed ones. *)
Definition enumValidator (e : option (list A)) : list Validator :=
  match e with
  | None => []
  | Some vals =>
      [ {| validatorKind := KindEnum;
           validator := fun _ v =>
             match v with
             | Val a => bool_decide (a ∈ vals)
             | _ => true
             end |} ]
  end.

(** The validators of a path: required is put at the front of the
    list, whatever the order of the options. *)
Definition validators (o : SchemaTypeOptions A) : list Validator :=
  requiredValidator (required o) ++ enumValidator (enum o).

Definition isUndefined (v : field A) : bool :=
  match v with
  | Undefined => true
  | _ => false
  end.

(** SchemaType.doValidate: the validators run in order and the first
    one that fails is the error of the path; on an undefined value
    only the required validator runs. *)
Fixpoint doValidate (vs : list Validator) (this : InterfaceEvent)
    (v : field A) : option ValidatorKind :=
  match vs with
  | [] => None
  | w :: vs' =>
      let skipped :=
        match validatorKind w with
        | KindRequired => false
        | _ => isUndefined v
        end in
      if skipped || validator w this v
      then doValidate vs' this v
      else Some (validatorKind w)
  end.

(** The errors a path adds to the ValidationError of the document. *)
Definition validatePath (p : Path) (o : SchemaTypeOptions A)
    (this : InterfaceEvent) (v : field A) : list ValidatorError :=
  match doValidate (validators o) this v with
  | Some k => [ {| path := p; kind := k |} ]
  | None => []
  end.

(** A default is used for an undefined value only; null stays. *)
Definition applyDefault (o : SchemaTypeOptions A) (v : field A) : field A :=
  match default o, v with
  | Some d, Undefined => Val d
  | _, _ => v
  end.

End SchemaTypeValidation.
Arguments Validator A : clear implicits.

(** ** Validation of a document (mongoose Document) *)

(** Building a document from a candidate fills in the defaults of the
    schema; an array path that is undefined starts as the empty array. *)
Definition applyDefaults (c : InterfaceEvent) : InterfaceEvent :=
  {| title := applyDefault eventSchema.title (title c);
     description := applyDefault eventSchema.description (description c);
     attendees := applyDefault eventSchema.attendees (attendees c);
     location := applyDefault eventSchema.location (location c);
     latitude := applyDefault eventSchema.latitude (latitude c);
     longitude := applyDefault eventSchema.longitude (longitude c);
     recurring := applyDefault eventSchema.recurring (recurring c);
     isRecurringEventException :=
       applyDefault eventSchema.isRecurringEventException
         (isRecurringEventException c);
     isBaseRecurringEvent :=
       applyDefault eventSchema.isBaseRecurringEvent (isBaseRecurringEvent c);
     recurrenceRuleId :=
       applyDefault eventSchema.recurrenceRuleId (recurrenceRuleId c);
     baseRecurringEventId :=
       applyDefault eventSchema.baseRecurringEventId (baseRecurringEventId c);
     allDay := applyDefault eventSchema.allDay (allDay c);
     startDate := applyDefault eventSchema.startDate (startDate c);
     endDate := applyDefault eventSchema.endDate (endDate c);
     startTime := applyDefault eventSchema.startTime (startTime c);
     endTime := applyDefault eventSchema.endTime (endTime c);
     recurrance := applyDefault eventSchema.recurrance (recurrance c);
     isPublic := applyDefault eventSchema.isPublic (isPublic c);
     isRegisterable := applyDefault eventSchema.isRegisterable (isRegisterable c);
     creatorId := applyDefault eventSchema.creatorId (creatorId c);
     admins := match admins c with Undefined => Val [] | v => v end;
     organization := applyDefault eventSchema.organization (organization c);
     status := applyDefault eventSchema.status (status c) |}.

(** The entries of an array path are validated one by one, each under
    its own path (admins.0, admins.1, ...). *)
Definition validateEntries (name : string) (o : SchemaTypeOptions ObjectId)
    (this : InterfaceEvent) (v : field (list (field ObjectId)))
    : list ValidatorError :=
  match v with
  | Val l => mjoin (imap (fun i x => validatePath (Entry name i) o this x) l)
  | _ => []
  end.

(** Document.validateSync: the errors of all paths.  mongoose keeps them
    in an object keyed by path; the list below holds the same errors,
    one path after the other as the schema declares them.  The order in
    which mongoose happens to fill its object is a different one and is
    not modelled: what is stated about the errors of a document is
    stated about membership, never about position. *)
Definition validateSync (d : InterfaceEvent) : list ValidatorError :=
  validatePath (Key "title") eventSchema.title d (title d) ++
  validatePath (Key "description") eventSchema.description d (description d) ++
  validatePath (Key "attendees") eventSchema.attendees d (attendees d) ++
  validatePath (Key "location") eventSchema.location d (location d) ++
  validatePath (Key "latitude") eventSchema.latitude d (latitude d) ++
  validatePath (Key "longitude") eventSchema.longitude d (longitude d) ++
  validatePath (Key "recurring") eventSchema.recurring d (recurring d) ++
  validatePath (Key "isRecurringEventException")
    eventSchema.isRecurringEventException d (isRecurringEventException d) ++
  validatePath (Key "isBaseRecurringEvent")
    eventSchema.isBaseRecurringEvent d (isBaseRecurringEvent d) ++
  validatePath (Key "recurrenceRuleId")
    eventSchema.recurrenceRuleId d (recurrenceRuleId d) ++
  validatePath (Key "baseRecurringEventId")
    eventSchema.baseRecurringEventId d (baseRecurringEventId d) ++
  validatePath (Key "allDay") eventSchema.allDay d (allDay d) ++
  validatePath (Key "startDate") eventSchema.startDate d (startDate d) ++
  validatePath (Key "endDate") eventSchema.endDate d (endDate d) ++
  validatePath (Key "startTime") eventSchema.startTime d (startTime d) ++
  validatePath (Key "endTime") eventSchema.endTime d (endTime d) ++
  validatePath (Key "recurrance") eventSchema.recurrance d (recurrance d) ++
  validatePath (Key "isPublic") eventSchema.isPublic d (isPublic d) ++
  validatePath (Key "isRegisterable")
    eventSchema.isRegisterable d (isRegisterable d) ++
  validatePath (Key "creatorId") eventSchema.creatorId d (creatorId d) ++
  validateEntries "admins" eventSchema.admins d (admins d) ++
  validatePath (Key "organization") eventSchema.organization d (organization d) ++
  validatePath (Key "status") eventSchema.status d (status d).

Inductive Result :=
| Ok (event : InterfaceEvent)
| Rejected (errors : list ValidatorError).

(** What a caller of the model does with a candidate: build the document
    (new Event(candidate)) and validate it.  The document is the result
    when no path reports an error. *)
Definition validate (c : InterfaceEvent) : Result :=
  let d := applyDefaults c in
  match validateSync d with
  | [] => Ok d
  | errors => Rejected errors
  end.

(** ** The error names of the specification

    mongoose reports the kind of the failed validator (required, enum)
    and the path.  The specification names a required failure after the
    way the path declares [required]: a boolean gives
    MissingRequiredField, a function of the document gives
    ConditionalRequirementUnmet.  MalformedReference stands for a value
    that cannot be cast to an ObjectId; casting happens before the
    values this development starts from. *)
Inductive ValidationError :=
| MissingRequiredField
| InvalidEnumValue
| ConditionalRequirementUnmet
| MalformedReference.

(** The [required] option of every path of the schema. *)
Definition schemaRequired : gmap string RequiredOption :=
  list_to_map
    [ ("title", required eventSchema.title);
      ("description", required eventSchema.description);
      ("attendees", required eventSchema.attendees);
      ("location", required eventSchema.location);
      ("latitude", required eventSchema.latitude);
      ("longitude", required eventSchema.longitude);
      ("recurring", required eventSchema.recurring);
      ("isRecurringEventException",
        required eventSchema.isRecurringEventException);
      ("isBaseRecurringEvent", required eventSchema.isBaseRecurringEvent);
      ("recurrenceRuleId", required eventSchema.recurrenceRuleId);
      ("baseRecurringEventId", required eventSchema.baseRecurringEventId);
      ("allDay", required eventSchema.allDay);
      ("startDate", required eventSchema.startDate);
      ("endDate", required eventSchema.endDate);
      ("startTime", required eventSchema.startTime);
      ("endTime", required eventSchema.endTime);
      ("recurrance", required eventSchema.recurrance);
      ("isPublic", required eventSchema.isPublic);
      ("isRegisterable", required eventSchema.isRegisterable);
      ("creatorId", required eventSchema.creatorId);
      ("admins", required eventSchema.admins);
      ("organization", required eventSchema.organization);
      ("status", required eventSchema.status) ].

Definition pathName (p : Path) : string :=
  match p with
  | Key name => name
  | Entry name _ => name
  end.

Definition classify (e : ValidatorError) : ValidationError :=
  match kind e with
  | KindEnum => InvalidEnumValue
  | KindRequired =>
      match schemaRequired !! pathName (path e) with
      | Some (RequiredFn _) => ConditionalRequirementUnmet
      | _ => MissingRequiredField
      end
  end.

(** A candidate is accepted when validation returns a document, and
    rejected at a path with a named error when the ValidationError holds
    such an error for that path. *)
Definition accepted (c : InterfaceEvent) : Prop :=
  exists d, validate c = Ok d.

Definition rejected (c : InterfaceEvent) : Prop :=
  exists errors, validate c = Rejected errors.

Definition rejectedWith (c : InterfaceEvent) (p : Path) (e : ValidationError)
    : Prop :=
  exists errors err,
    validate c = Rejected errors /\ err ∈ errors /\ path err = p /\ classify err = e.

(** ** Candidates of the specification's examples *)

(** 2024-01-01T00:00:00Z and the epoch, as time values. *)
Definition newYear2024 : Date := 1704067200000%Z ↾ I.
Definition epoch : Date := 0%Z ↾ I.

(** The ids of a user and of an organization, as the 24-digit strings
    "65f0a1b2c3d4e5f6a7b8c9d0" and "65f0a1b2c3d4e5f6a7b8c9d1" cast. *)
Definition user1 : ObjectId := 0x65f0a1b2c3d4e5f6a7b8c9d0%N ↾ I.
Definition organization1 : ObjectId := 0x65f0a1b2c3d4e5f6a7b8c9d1%N ↾ I.

(** The stand-up of the specification,
    { title: "Standup", description: "daily sync", allDay: true,
      startDate: "2024-01-01", isPublic: true, isRegisterable: false,
      creatorId: ..., organization: ... },
    with ids that cast in place of the specification's "u1" and "o1",
    which are no ObjectIds. *)
Definition standup : InterfaceEvent :=
  {| title := Val "Standup";
     description := Val "daily sync";
     attendees := Undefined;
     location := Undefined;
     latitude := Undefined;
     longitude := Undefined;
     recurring := Undefined;
     isRecurringEventException := Undefined;
     isBaseRecurringEvent := Undefined;
     recurrenceRuleId := Undefined;
     baseRecurringEventId := Undefined;
     allDay := Val true;
     startDate := Val newYear2024;
     endDate := Undefined;
     startTime := Undefined;
     endTime := Undefined;
     recurrance := Undefined;
     isPublic := Val true;
     isRegisterable := Val false;
     creatorId := Val user1;
     admins := Undefined;
     organization := Val organization1;
     status := Undefined |}.

(** Candidates that differ from a given one in a few keys. *)

Definition withTimes (c : InterfaceEvent) (s e : field Date) : InterfaceEvent :=
  {| title := title c; description := description c; attendees := attendees c;
     location := location c; latitude := latitude c; longitude := longitude c;
     recurring := recurring c;
     isRecurringEventException := isRecurringEventException c;
     isBaseRecurringEvent := isBaseRecurringEvent c;
     recurrenceRuleId := recurrenceRuleId c;
     baseRecurringEventId := baseRecurringEventId c;
     allDay := allDay c; startDate := startDate c; endDate := endDate c;
     startTime := s; endTime := e;
     recurrance := recurrance c; isPublic := isPublic c;
     isRegisterable := isRegisterable c; creatorId := creatorId c;
     admins := admins c; organization := organization c; status := status c |}.

Definition withAllDay (c : InterfaceEvent) (a : field bool) : InterfaceEvent :=
  {| title := title c; description := description c; attendees := attendees c;
     location := location c; latitude := latitude c; longitude := longitude c;
     recurring := recurring c;
     isRecurringEventException := isRecurringEventException c;
     isBaseRecurringEvent := isBaseRecurringEvent c;
     recurrenceRuleId := recurrenceRuleId c;
     baseRecurringEventId := baseRecurringEventId c;
     allDay := a; startDate := startDate c; endDate := endDate c;
     startTime := startTime c; endTime := endTime c;
     recurrance := recurrance c; isPublic := isPublic c;
     isRegisterable := isRegisterable c; creatorId := creatorId c;
     admins := admins c; organization := organization c; status := status c |}.

Definition withLongitude (c : InterfaceEvent) (x : field Number) : InterfaceEvent :=
  {| title := title c; description := description c; attendees := attendees c;
     location := location c; latitude := latitude c; longitude := x;
     recurring := recurring c;
     isRecurringEventException := isRecurringEventException c;
     isBaseRecurringEvent := isBaseRecurringEvent c;
     recurrenceRuleId := recurrenceRuleId c;
     baseRecurringEventId := baseRecurringEventId c;
     allDay := allDay c; startDate := startDate c; endDate := endDate c;
     startTime := startTime c; endTime := endTime c;
     recurrance := recurrance c; isPublic := isPublic c;
     isRegisterable := isRegisterable c; creatorId := creatorId c;
     admins := admins c; organization := organization c; status := status c |}.

Definition withRecurrence (c : InterfaceEvent) (r : field bool)
    (p : field string) : InterfaceEvent :=
  {| title := title c; description := description c; attendees := attendees c;
     location := location c; latitude := latitude c; longitude := longitude c;
     recurring := r;
     isRecurringEventException := isRecurringEventException c;
     isBaseRecurringEvent := isBaseRecurringEvent c;
     recurrenceRuleId := recurrenceRuleId c;
     baseRecurringEventId := baseRecurringEventId c;
     allDay := allDay c; startDate := startDate c; endDate := endDate c;
     startTime := startTime c; endTime := endTime c;
     recurrance := p; isPublic := isPublic c;
     isRegisterable := isRegisterable c; creatorId := creatorId c;
     admins := admins c; organization := organization c; status := status c |}.

Definition withFlags (c : InterfaceEvent) (exception base : field bool)
    : InterfaceEvent :=
  {| title := title c; description := description c; attendees := attendees c;
     location := location c; latitude := latitude c; longitude := longitude c;
     recurring := recurring c;
     isRecurringEventException := exception;
     isBaseRecurringEvent := base;
     recurrenceRuleId := recurrenceRuleId c;
     baseRecurringEventId := baseRecurringEventId c;
     allDay := allDay c; startDate := startDate c; endDate := endDate c;
     startTime := startTime c; endTime := endTime c;
     recurrance := recurrance c; isPublic := isPublic c;
     isRegisterable := isRegisterable c; creatorId := creatorId c;
     admins := admins c; organization := organization c; status := status c |}.

Definition withText (c : InterfaceEvent) (t d : field string) : InterfaceEvent :=
  {| title := t; description := d; attendees := attendees c;
     location := location c; latitude := latitude c; longitude := longitude c;
     recurring := recurring c;
     isRecurringEventException := isRecurringEventException c;
     isBaseRecurringEvent := isBaseRecurringEvent c;
     recurrenceRuleId := recurrenceRuleId c;
     baseRecurringEventId := baseRecurringEventId c;
     allDay := allDay c; startDate := startDate c; endDate := endDate c;
     startTime := startTime c; endTime := endTime c;
     recurrance := recurrance c; isPublic := isPublic c;
     isRegisterable := isRegisterable c; creatorId := creatorId c;
     admins := admins c; organization := organization c; status := status c |}.

Definition withAdmins (c : InterfaceEvent) (l : field (list (field ObjectId)))
    : InterfaceEvent :=
  {| title := title c; description := description c; attendees := attendees c;
     location := location c; latitude := latitude c; longitude := longitude c;
     recurring := recurring c;
     isRecurringEventException := isRecurringEventException c;
     isBaseRecurringEvent := isBaseRecurringEvent c;
     recurrenceRuleId := recurrenceRuleId c;
     baseRecurringEventId := baseRecurringEventId c;
     allDay := allDay c; startDate := startDate c; endDate := endDate c;
     startTime := startTime c; endTime := endTime c;
     recurrance := recurrance c; isPublic := isPublic c;
     isRegisterable := isRegisterable c; creatorId := creatorId c;
     admins := l; organization := organization c; status := status c |}.

Definition withStatus (c : InterfaceEvent) (s : field string) : InterfaceEvent :=
  {| title := title c; description := description c; attendees := attendees c;
     location := location c; latitude := latitude c; longitude := longitude c;
     recurring := recurring c;
     isRecurringEventException := isRecurringEventException c;
     isBaseRecurringEvent := isBaseRecurringEvent c;
     recurrenceRuleId := recurrenceRuleId c;
     baseRecurringEventId := baseRecurringEventId c;
     allDay := allDay c; startDate := startDate c; endDate := endDate c;
     startTime := startTime c; endTime := endTime c;
     recurrance := recurrance c; isPublic := isPublic c;
     isRegisterable := isRegisterable c; creatorId := creatorId c;
     admins := admins c; organization := organization c; status := s |}.

(** A value a candidate does not carry: the key is omitted or null. *)
Definition absent {A : Type} (v : field A) : Prop :=
  v = Undefined \/ v = Null.

Definition isAbsent {A : Type} (v : field A) : bool :=
  match v with
  | Val _ => false
  | _ => true
  end.

(** ** The model registry and the export (lines 188-196)

    mongoose keeps the compiled models of the process in [models], by
    name.  Schemas and models are objects; what matters of an object
    here is which one it is, so each gets a number when it is created.
    createLoggingMiddleware (line 188) adds hooks to the schema and
    leaves the registry alone. *)

Record Model := {
  modelName : string;
  modelSchema : nat;
  modelObject : nat;
}.

#[export] Instance Model_eq_dec : EqDecision Model.
Proof. solve_decision. Defined.

Record Mongoose := {
  models : gmap string Model;
  nextObject : nat;
}.

Inductive MongooseError :=
| OverwriteModelError (name : string).

(** Code that reads and writes the process-wide mongoose state and may
    throw; a throw keeps the state reached so far. *)
Definition M (A : Type) : Type := Mongoose -> (MongooseError + A) * Mongoose.

Definition ret {A : Type} (a : A) : M A := fun g => (inr a, g).

Definition throw {A : Type} (e : MongooseError) : M A := fun g => (inl e, g).

Definition bind {A B : Type} (m : M A) (k : A -> M B) : M B :=
  fun g =>
    match m g with
    | (inr a, g') => k a g'
    | (inl e, g') => (inl e, g')
    end.

Notation "x <- m ;; k" := (bind m (fun x => k))
  (at level 100, m at next level, right associativity).

Definition getModels : M (gmap string Model) := fun g => (inr (models g), g).

Definition newObject : M nat :=
  fun g => (inr (nextObject g),
            {| models := models g; nextObject := S (nextObject g) |}).

Definition setModel (name : string) (m : Model) : M unit :=
  fun g => (inr tt,
            {| models := <[name := m]> (models g); nextObject := nextObject g |}).

(** new Schema(...), line 69: a new schema object. *)
Definition newSchema : M nat := newObject.

(** mongoose.model(name, schema): a name that is taken gives back its
    model when the schema is the registered one and throws
    OverwriteModelError otherwise; a free name gets a new model. *)
Definition model (name : string) (schema : nat) : M Model :=
  ms <- getModels ;;
  match ms !! name with
  | Some m =>
      if decide (modelSchema m = schema)
      then ret m
      else throw (OverwriteModelError name)
  | None =>
      o <- newObject ;;
      let m := {| modelName := name; modelSchema := schema; modelObject := o |} in
      _ <- setModel name m ;;
      ret m
  end.

(** Lines 190-191. *)
Definition eventModel (eventSchema : nat) : M Model :=
  model "Event" eventSchema.

(** Lines 194-196: models.Event || eventModel(). *)
Definition Event (eventSchema : nat) : M Model :=
  ms <- getModels ;;
  match ms !! "Event" with
  | Some m => ret m
  | None => eventModel eventSchema
  end.

(** One execution of the module: the schema is built, then the export
    is evaluated. *)
Definition loadModule : M Model :=
  eventSchema <- newSchema ;;
  Event eventSchema.

(** The same module without the guard of line 194. *)
Definition loadModuleUnguarded : M Model :=
  eventSchema <- newSchema ;;
  eventModel eventSchema.

Definition emptyMongoose : Mongoose := {| models := ∅; nextObject := 0 |}.


(** Every object a registered model refers to has been created: its
    number is below the next one to be given out. *)
Definition allocated (g : Mongoose) : Prop :=
  forall name m, models g !! name = Some m ->
    modelSchema m < nextObject g /\ modelObject m < nextObject g.

(** * Properties *)

(** ** Validation: general facts *)

Lemma validate_Ok (c d : InterfaceEvent) :
  validate c = Ok d <-> d = applyDefaults c /\ validateSync d = [].
Proof.
  unfold validate. split.
  - destruct (validateSync (applyDefaults c)) eqn:E; intros Hv.
    + injection Hv as <-. by split.
    + discriminate.
  - intros [-> ->]. reflexivity.
Qed.

Lemma validate_Rejected (c : InterfaceEvent) (errors : list ValidatorError) :
  validate c = Rejected errors <->
  errors = validateSync (applyDefaults c) /\ errors <> [].
Proof.
  unfold validate. split.
  - destruct (validateSync (applyDefaults c)) eqn:E; intros Hv.
    + discriminate.
    + injection Hv as <-. by split.
  - intros [-> Hne]. by destruct (validateSync (applyDefaults c)).
Qed.

Lemma error_rejects (c : InterfaceEvent) (err : ValidatorError) :
  err ∈ validateSync (applyDefaults c) ->
  validate c = Rejected (validateSync (applyDefaults c)).
Proof.
  intros Hin. apply validate_Rejected. split; [done|].
  intros E. rewrite E in Hin. by apply not_elem_of_nil in Hin.
Qed.

Lemma accepted_iff (c : InterfaceEvent) :
  accepted c <-> validateSync (applyDefaults c) = [].
Proof.
  split.
  - intros [d Hd]. apply validate_Ok in Hd as [-> Hd]. done.
  - intros E. exists (applyDefaults c). by apply validate_Ok.
Qed.

Lemma rejected_iff (c : InterfaceEvent) :
  rejected c <-> validateSync (applyDefaults c) <> [].
Proof.
  split.
  - intros [errors He]. apply validate_Rejected in He as [-> He]. done.
  - intros E. exists (validateSync (applyDefaults c)). by apply validate_Rejected.
Qed.

Lemma accepted_not_rejected (c : InterfaceEvent) :
  accepted c -> ~ rejected c.
Proof. rewrite accepted_iff, rejected_iff. tauto. Qed.

(** Every error a path reports carries that path. *)
Lemma validatePath_path {A : Type} `{SchemaType A} (p : Path)
    (o : SchemaTypeOptions A) (this : InterfaceEvent) (v : field A)
    (err : ValidatorError) :
  err ∈ validatePath p o this v -> path err = p.
Proof.
  unfold validatePath. destruct (doValidate _ _ _); intros Hin.
  - apply list_elem_of_singleton in Hin. by subst.
  - by apply not_elem_of_nil in Hin.
Qed.

Lemma validateEntries_elem (name : string) (o : SchemaTypeOptions ObjectId)
    (this : InterfaceEvent) (v : field (list (field ObjectId)))
    (err : ValidatorError) :
  err ∈ validateEntries name o this v <->
  exists l i x, v = Val l /\ l !! i = Some x /\
                err ∈ validatePath (Entry name i) o this x.
Proof.
  unfold validateEntries. split.
  - destruct v as [| |l]; try (intros Hin; by apply not_elem_of_nil in Hin).
    intros Hin. apply list_elem_of_join in Hin as (errs & Hin & Herrs).
    apply elem_of_lookup_imap in Herrs as (i & x & -> & Hx).
    by exists l, i, x.
  - intros (l & i & x & -> & Hx & Hin).
    apply list_elem_of_join. eexists. split; [exact Hin|].
    apply elem_of_lookup_imap. by exists i, x.
Qed.

Lemma validateEntries_path (name : string) (o : SchemaTypeOptions ObjectId)
    (this : InterfaceEvent) (v : field (list (field ObjectId)))
    (err : ValidatorError) :
  err ∈ validateEntries name o this v -> pathName (path err) = name.
Proof.
  intros (l & i & x & _ & _ & Hin)%validateEntries_elem.
  apply validatePath_path in Hin. by rewrite Hin.
Qed.

Lemma validateSync_elem (d : InterfaceEvent) (err : ValidatorError) :
  err ∈ validateSync d <->
  err ∈ validatePath (Key "title") eventSchema.title d (title d) \/
  err ∈ validatePath (Key "description") eventSchema.description d (description d) \/
  err ∈ validatePath (Key "attendees") eventSchema.attendees d (attendees d) \/
  err ∈ validatePath (Key "location") eventSchema.location d (location d) \/
  err ∈ validatePath (Key "latitude") eventSchema.latitude d (latitude d) \/
  err ∈ validatePath (Key "longitude") eventSchema.longitude d (longitude d) \/
  err ∈ validatePath (Key "recurring") eventSchema.recurring d (recurring d) \/
  err ∈ validatePath (Key "isRecurringEventException")
          eventSchema.isRecurringEventException d (isRecurringEventException d) \/
  err ∈ validatePath (Key "isBaseRecurringEvent")
          eventSchema.isBaseRecurringEvent d (isBaseRecurringEvent d) \/
  err ∈ validatePath (Key "recurrenceRuleId")
          eventSchema.recurrenceRuleId d (recurrenceRuleId d) \/
  err ∈ validatePath (Key "baseRecurringEventId")
          eventSchema.baseRecurringEventId d (baseRecurringEventId d) \/
  err ∈ validatePath (Key "allDay") eventSchema.allDay d (allDay d) \/
  err ∈ validatePath (Key "startDate") eventSchema.startDate d (startDate d) \/
  err ∈ validatePath (Key "endDate") eventSchema.endDate d (endDate d) \/
  err ∈ validatePath (Key "startTime") eventSchema.startTime d (startTime d) \/
  err ∈ validatePath (Key "endTime") eventSchema.endTime d (endTime d) \/
  err ∈ validatePath (Key "recurrance") eventSchema.recurrance d (recurrance d) \/
  err ∈ validatePath (Key "isPublic") eventSchema.isPublic d (isPublic d) \/
  err ∈ validatePath (Key "isRegisterable")
          eventSchema.isRegisterable d (isRegisterable d) \/
  err ∈ validatePath (Key "creatorId") eventSchema.creatorId d (creatorId d) \/
  err ∈ validateEntries "admins" eventSchema.admins d (admins d) \/
  err ∈ validatePath (Key "organization") eventSchema.organization d (organization d) \/
  err ∈ validatePath (Key "status") eventSchema.status d (status d).
Proof. unfold validateSync. rewrite !elem_of_app. reflexivity. Qed.

(** The name of the key an error of the document is reported under is a
    key of the schema, and the error comes from that key's validators. *)
Ltac error_cases Hin :=
  apply validateSync_elem in Hin;
  repeat match type of Hin with
         | _ \/ _ => destruct Hin as [Hin|Hin]
         end.

(** An error belongs to the errors of the document as soon as one path
    reports it; [leaf] shows that the path does. *)
Ltac report_with leaf :=
  unfold validateSync;
  repeat first
    [ apply elem_of_app; left; solve [ leaf ]
    | apply elem_of_app; right ];
  solve [ leaf ].

Ltac report_at_path :=
  report_with ltac:(cbn; apply list_elem_of_singleton; reflexivity).

Lemma rejectedWith_intro (c : InterfaceEvent) (err : ValidatorError)
    (p : Path) (e : ValidationError) :
  err ∈ validateSync (applyDefaults c) ->
  path err = p -> classify err = e ->
  rejectedWith c p e.
Proof.
  intros Hin Hp He. exists (validateSync (applyDefaults c)), err.
  split; [by eapply error_rejects|done].
Qed.

Lemma rejectedWith_rejected (c : InterfaceEvent) (p : Path) (e : ValidationError) :
  rejectedWith c p e -> rejected c.
Proof. intros (errors & _ & Hv & _). by exists errors. Qed.

Lemma accepted_no_error (c d : InterfaceEvent) (err : ValidatorError) :
  validate c = Ok d -> err ∈ validateSync d -> False.
Proof.
  intros [_ E]%validate_Ok Hin. rewrite E in Hin.
  by apply not_elem_of_nil in Hin.
Qed.

(** ** Single paths *)

Lemma string_nonempty (s : string) :
  s <> "" -> (String.length s =? 0)%nat = false.
Proof. by destruct s. Qed.

(** A required string: undefined, null and the empty string fail. *)
Lemma validatePath_required_string (p : Path) (o : SchemaTypeOptions string)
    (this : InterfaceEvent) (v : field string) :
  required o = RequiredBool true ->
  absent v \/ v = Val "" ->
  validatePath p o this v = [ {| path := p; kind := KindRequired |} ].
Proof.
  intros Hr Hv. unfold validatePath, validators. rewrite Hr.
  destruct Hv as [[-> | ->] | ->]; reflexivity.
Qed.

(** The path recurrance on a string outside the enumeration: the
    required validator speaks first when the document is recurring and
    the string is empty, the enum validator otherwise. *)
Lemma validatePath_recurrance_outside (this : InterfaceEvent) (s : string) :
  s ∉ recurranceValues ->
  validatePath (Key "recurrance") eventSchema.recurrance this (Val s) =
  [ {| path := Key "recurrance";
       kind := if recurrance_required this && (String.length s =? 0)%nat
               then KindRequired else KindEnum |} ].
Proof.
  intros Hs. unfold validatePath. cbn.
  destruct (recurrance_required this); cbn.
  - destruct (String.length s =? 0)%nat; cbn; [done|].
    by rewrite bool_decide_false.
  - by rewrite bool_decide_false.
Qed.

Lemma validatePath_recurrance_inside (this : InterfaceEvent) (s : string) :
  s ∈ recurranceValues ->
  validatePath (Key "recurrance") eventSchema.recurrance this (Val s) = [].
Proof.
  intros Hs. unfold validatePath. cbn.
  assert ((String.length s =? 0)%nat = false) as ->.
  { apply string_nonempty. intros ->. revert Hs.
    apply (bool_decide_eq_false_1 ("" ∈ recurranceValues)). reflexivity. }
  rewrite orb_true_r. cbn. by rewrite bool_decide_true.
Qed.

Lemma validatePath_status_outside (this : InterfaceEvent) (s : string) :
  s ∉ statusValues ->
  validatePath (Key "status") eventSchema.status this (Val s) =
  [ {| path := Key "status";
       kind := if (String.length s =? 0)%nat then KindRequired else KindEnum |} ].
Proof.
  intros Hs. unfold validatePath. cbn.
  destruct (String.length s =? 0)%nat; cbn; [done|].
  by rewrite bool_decide_false.
Qed.

(** ** title and description *)

(** C8.  title and description are required text: a candidate whose
    title (or description) is omitted, null or the empty string is
    rejected, and the error of that path is the unconditional
    missing-required one. *)
Theorem title_description_required (c : InterfaceEvent) :
  (absent (title c) \/ title c = Val "" ->
     rejectedWith c (Key "title") MissingRequiredField) /\
  (absent (description c) \/ description c = Val "" ->
     rejectedWith c (Key "description") MissingRequiredField).
Proof.
  split; intros Hv.
  - apply (rejectedWith_intro c {| path := Key "title"; kind := KindRequired |});
      [|reflexivity|by vm_compute].
    report_with ltac:(
      rewrite (validatePath_required_string (Key "title") eventSchema.title);
      [by apply list_elem_of_singleton|reflexivity|destruct c; exact Hv]).
  - apply (rejectedWith_intro c
             {| path := Key "description"; kind := KindRequired |});
      [|reflexivity|by vm_compute].
    report_with ltac:(
      rewrite (validatePath_required_string (Key "description")
                 eventSchema.description);
      [by apply list_elem_of_singleton|reflexivity|destruct c; exact Hv]).
Qed.

Lemma title_description_required_witness :
  rejectedWith (withText standup (Val "") (Val "daily sync"))
    (Key "title") MissingRequiredField /\
  rejectedWith (withText standup (Val "Standup") Undefined)
    (Key "description") MissingRequiredField.
Proof.
  split.
  - apply (proj1 (title_description_required
                    (withText standup (Val "") (Val "daily sync")))).
    right. reflexivity.
  - apply (proj2 (title_description_required
                    (withText standup (Val "Standup") Undefined))).
    left. left. reflexivity.
Defined.

(** ** startTime and endTime *)

Lemma absent_isAbsent {A : Type} (v : field A) :
  absent v <-> isAbsent v = true.
Proof.
  split.
  - by intros [-> | ->].
  - destruct v; cbn; [by left|by right|done].
Qed.

Lemma validatePath_time_required (p : Path) (o : SchemaTypeOptions Date)
    (f : InterfaceEvent -> bool) (this : InterfaceEvent) (v : field Date) :
  required o = RequiredFn f -> enum o = None ->
  validatePath p o this v =
  if f this && isAbsent v
  then [ {| path := p; kind := KindRequired |} ] else [].
Proof.
  intros Hr He. unfold validatePath, validators. rewrite Hr, He. cbn.
  destruct (f this); cbn; [|done].
  by destruct v.
Qed.

(** The errors of a document do not depend on its times once allDay is
    true. *)
Lemma validateSync_allDay_times (c : InterfaceEvent) (s e : field Date) :
  allDay c = Val true ->
  validateSync (applyDefaults (withTimes c s e)) = validateSync (applyDefaults c).
Proof.
  intros Ha. destruct c; cbn in Ha; subst. unfold validateSync.
  cbn [applyDefaults withTimes title description attendees location latitude
       longitude recurring isRecurringEventException isBaseRecurringEvent
       recurrenceRuleId baseRecurringEventId allDay startDate endDate
       startTime endTime recurrance isPublic isRegisterable creatorId admins
       organization status].
  rewrite !(validatePath_time_required (Key "startTime") eventSchema.startTime
              startTime_required) by reflexivity.
  rewrite !(validatePath_time_required (Key "endTime") eventSchema.endTime
              endTime_required) by reflexivity.
  reflexivity.
Qed.

(** C1.  startTime and endTime are required exactly for a candidate
    that is not all-day: with allDay false, an omitted or null
    startTime (endTime) is rejected under the conditional required
    rule; with allDay true no error is ever reported for either path
    and whether the candidate is accepted does not depend on them. *)
Theorem times_required_unless_allDay (c : InterfaceEvent) :
  (allDay c = Val false ->
     (absent (startTime c) ->
        rejectedWith c (Key "startTime") ConditionalRequirementUnmet) /\
     (absent (endTime c) ->
        rejectedWith c (Key "endTime") ConditionalRequirementUnmet)) /\
  (allDay c = Val true ->
     (forall errors err, validate c = Rejected errors -> err ∈ errors ->
        path err <> Key "startTime" /\ path err <> Key "endTime") /\
     (forall s e, accepted (withTimes c s e) <-> accepted c)).
Proof.
  split; intros Ha.
  - split; intros Hv.
    + apply (rejectedWith_intro c
               {| path := Key "startTime"; kind := KindRequired |});
        [|reflexivity|by vm_compute].
      destruct c; cbn in Ha, Hv; subst.
      report_with ltac:(
        rewrite (validatePath_time_required (Key "startTime")
                   eventSchema.startTime startTime_required) by reflexivity;
        cbn; rewrite (proj1 (absent_isAbsent _) Hv);
        by apply list_elem_of_singleton).
    + apply (rejectedWith_intro c
               {| path := Key "endTime"; kind := KindRequired |});
        [|reflexivity|by vm_compute].
      destruct c; cbn in Ha, Hv; subst.
      report_with ltac:(
        rewrite (validatePath_time_required (Key "endTime")
                   eventSchema.endTime endTime_required) by reflexivity;
        cbn; rewrite (proj1 (absent_isAbsent _) Hv);
        by apply list_elem_of_singleton).
  - split.
    + intros errors err [-> _]%validate_Rejected Hin.
      destruct c; cbn in Ha; subst.
      error_cases Hin;
        (pose proof Hin as Hp;
         first [ apply validatePath_path in Hp
               | apply validateEntries_path in Hp ];
         split; intros E; rewrite E in Hp; try discriminate Hp;
         revert Hin;
         first
           [ rewrite (validatePath_time_required (Key "startTime")
                        eventSchema.startTime startTime_required) by reflexivity
           | rewrite (validatePath_time_required (Key "endTime")
                        eventSchema.endTime endTime_required) by reflexivity ];
         cbn; apply not_elem_of_nil).
    + intros s e. rewrite !accepted_iff.
      by rewrite validateSync_allDay_times.
Qed.

(** The second example of the specification: the stand-up with allDay
    false and no times is rejected at startTime and at endTime, and
    nowhere else. *)
Example standup_not_allDay_rejected :
  exists errors,
    validate (withAllDay standup (Val false)) = Rejected errors /\
    errors ≡ₚ [ {| path := Key "startTime"; kind := KindRequired |};
                {| path := Key "endTime"; kind := KindRequired |} ].
Proof. eexists. split; reflexivity. Qed.

(** With allDay left out the required functions see a falsy value, so
    the times are asked for as well, next to allDay itself. *)
Example standup_without_allDay_rejected :
  exists errors,
    validate (withAllDay standup Undefined) = Rejected errors /\
    errors ≡ₚ [ {| path := Key "allDay"; kind := KindRequired |};
                {| path := Key "startTime"; kind := KindRequired |};
                {| path := Key "endTime"; kind := KindRequired |} ].
Proof. eexists. split; reflexivity. Qed.

Lemma times_required_unless_allDay_witness :
  (rejectedWith (withAllDay standup (Val false))
     (Key "startTime") ConditionalRequirementUnmet /\
   rejectedWith (withAllDay standup (Val false))
     (Key "endTime") ConditionalRequirementUnmet) /\
  (accepted (withTimes standup (Val epoch) Null) <-> accepted standup).
Proof.
  split.
  - split.
    + apply (proj1 (times_required_unless_allDay
                      (withAllDay standup (Val false)))); [reflexivity|].
      left. reflexivity.
    + apply (proj1 (times_required_unless_allDay
                      (withAllDay standup (Val false)))); [reflexivity|].
      left. reflexivity.
  - apply (proj2 (times_required_unless_allDay standup)). reflexivity.
Defined.

(** ** Defaults *)

(** The first example of the specification. *)
Example standup_accepted :
  exists d, validate standup = Ok d /\
            recurring d = Val false /\
            status d = Val "ACTIVE" /\
            recurrance d = Val "ONCE".
Proof. eexists. split; [reflexivity|]. by cbn. Qed.

(** C3.  A validated event carries the schema's default wherever the
    candidate left the key out: recurring, isRecurringEventException
    and isBaseRecurringEvent are false, recurrance is ONCE and status
    is ACTIVE. *)
Theorem defaults_applied (c d : InterfaceEvent) :
  validate c = Ok d ->
  (recurring c = Undefined -> recurring d = Val false) /\
  (isRecurringEventException c = Undefined ->
     isRecurringEventException d = Val false) /\
  (isBaseRecurringEvent c = Undefined -> isBaseRecurringEvent d = Val false) /\
  (recurrance c = Undefined -> recurrance d = Val "ONCE") /\
  (status c = Undefined -> status d = Val "ACTIVE").
Proof.
  intros [-> _]%validate_Ok. destruct c; cbn.
  repeat split; intros ->; reflexivity.
Qed.

Lemma defaults_applied_witness :
  validate standup = Ok (applyDefaults standup) /\
  recurring (applyDefaults standup) = Val false /\
  isRecurringEventException (applyDefaults standup) = Val false /\
  isBaseRecurringEvent (applyDefaults standup) = Val false /\
  recurrance (applyDefaults standup) = Val "ONCE" /\
  status (applyDefaults standup) = Val "ACTIVE".
Proof.
  split; [reflexivity|].
  pose proof (defaults_applied standup (applyDefaults standup) eq_refl)
    as (H1 & H2 & H3 & H4 & H5).
  exact (conj (H1 eq_refl) (conj (H2 eq_refl) (conj (H3 eq_refl)
           (conj (H4 eq_refl) (H5 eq_refl))))).
Defined.

(** A key the candidate does carry is left as it is, null included. *)
Lemma applyDefault_keeps {A : Type} (o : SchemaTypeOptions A) (v : field A) :
  v <> Undefined -> applyDefault o v = v.
Proof. unfold applyDefault. by destruct (default o), v. Qed.

(** ** status *)

(** C4.  The status of a validated event is ACTIVE, BLOCKED or DELETED:
    a candidate whose status is any other string is not accepted, and a
    candidate without status is validated with status ACTIVE. *)
Theorem status_enumerated (c d : InterfaceEvent) :
  validate c = Ok d ->
  (exists s, status d = Val s /\ s ∈ statusValues) /\
  (forall s, status c = Val s -> s ∈ statusValues) /\
  (status c = Undefined -> status d = Val "ACTIVE").
Proof.
  intros Hv.
  assert (forall s, status c = Val s -> s ∈ statusValues) as Hin.
  { intros s Hs. destruct (decide (s ∈ statusValues)) as [|Hout]; [done|].
    exfalso.
    apply (validatePath_status_outside (applyDefaults c)) in Hout.
    apply (accepted_no_error c d
             {| path := Key "status";
                kind := if (String.length s =? 0)%nat
                        then KindRequired else KindEnum |} Hv).
    apply validate_Ok in Hv as [-> _].
    destruct c; cbn in Hs; subst.
    report_with ltac:(cbn [applyDefaults status applyDefault default
                           eventSchema.status];
                      rewrite Hout; by apply list_elem_of_singleton). }
  split; [|split; [exact Hin|]].
  - destruct (status c) as [| |s] eqn:Hs.
    + exists "ACTIVE". apply validate_Ok in Hv as [-> _].
      destruct c; cbn in Hs; subst. split; [reflexivity|].
      apply (bool_decide_unpack _). reflexivity.
    + exfalso.
      apply (accepted_no_error c d
               {| path := Key "status"; kind := KindRequired |} Hv).
      apply validate_Ok in Hv as [-> _].
      destruct c; cbn in Hs; subst. report_at_path.
    + exists s. split; [|by apply Hin].
      apply validate_Ok in Hv as [-> _]. by destruct c; cbn in Hs; subst.
  - intros Hs. apply validate_Ok in Hv as [-> _].
    by destruct c; cbn in Hs; subst.
Qed.

Lemma status_enumerated_witness :
  (exists s, status (applyDefaults standup) = Val s /\ s ∈ statusValues) /\
  (forall s, status standup = Val s -> s ∈ statusValues) /\
  (status standup = Undefined -> status (applyDefaults standup) = Val "ACTIVE").
Proof.
  apply (status_enumerated standup (applyDefaults standup)). reflexivity.
Defined.

(** A status outside the enumeration is reported at the path status. *)
Example status_outside_rejected :
  validate (withStatus standup (Val "ARCHIVED")) =
  Rejected [ {| path := Key "status"; kind := KindEnum |} ].
Proof. reflexivity. Qed.

(** ** recurrance *)

(** What the path recurrance reports on the defaults-applied document
    of a candidate that carries a string outside the enumeration. *)
Lemma recurrance_outside_reported (c : InterfaceEvent) (s : string) :
  recurrance c = Val s -> s ∉ recurranceValues ->
  {| path := Key "recurrance";
     kind := if truthy (recurring c) && (String.length s =? 0)%nat
             then KindRequired else KindEnum |}
  ∈ validateSync (applyDefaults c).
Proof.
  intros Hs Hout.
  apply (validatePath_recurrance_outside (applyDefaults c)) in Hout.
  assert (recurrance_required (applyDefaults c) = truthy (recurring c)) as Hr.
  { destruct c as [? ? ? ? ? ? r]. cbn. by destruct r. }
  rewrite Hr in Hout.
  destruct c; cbn in Hs; subst.
  report_with ltac:(cbn [applyDefaults recurrance applyDefault default
                         eventSchema.recurrance];
                    rewrite Hout; by apply list_elem_of_singleton).
Qed.




(** C9.  The enumeration of recurrance does not wait for recurring: a
    candidate that carries a recurrance string outside the five values
    is rejected at the path recurrance whatever recurring is, and with
    the enum error whenever recurring is not true. *)
Theorem recurrance_enum_unconditional (c : InterfaceEvent) (s : string) :
  recurrance c = Val s -> s ∉ recurranceValues ->
  rejected c /\
  (exists e, rejectedWith c (Key "recurrance") e) /\
  (truthy (recurring c) = false ->
     rejectedWith c (Key "recurrance") InvalidEnumValue).
Proof.
  intros Hs Hout.
  pose proof (recurrance_outside_reported c s Hs Hout) as Hin.
  assert (exists e, rejectedWith c (Key "recurrance") e) as He.
  { eexists. by apply (rejectedWith_intro c _ _ _ Hin). }
  split; [|split; [exact He|]].
  - destruct He as [e He]. by eapply rejectedWith_rejected.
  - intros Hf. rewrite Hf in Hin. by apply (rejectedWith_intro c _ _ _ Hin).
Qed.

Lemma recurrance_enum_unconditional_witness :
  rejected (withRecurrence standup (Val false) (Val "HOURLY")) /\
  rejectedWith (withRecurrence standup (Val false) (Val "HOURLY"))
    (Key "recurrance") InvalidEnumValue.
Proof.
  assert ("HOURLY" ∉ recurranceValues) as Hout
    by (apply (bool_decide_eq_false_1 _); reflexivity).
  pose proof (recurrance_enum_unconditional
                (withRecurrence standup (Val false) (Val "HOURLY"))
                "HOURLY" eq_refl Hout) as (H1 & _ & H3).
  exact (conj H1 (H3 eq_refl)).
Defined.

(** ** longitude *)

(** A path that is not required and has no enumeration has no
    validator, so it never reports an error. *)
Lemma validatePath_optional {A : Type} `{SchemaType A} (p : Path)
    (o : SchemaTypeOptions A) (this : InterfaceEvent) (v : field A) :
  required o = RequiredBool false \/ required o = RequiredUnset ->
  enum o = None ->
  validatePath p o this v = [].
Proof.
  intros Hr He. unfold validatePath, validators. rewrite He.
  by destruct Hr as [-> | ->].
Qed.

(** The stand-up of the specification leaves longitude out and is
    accepted: the schema declares longitude with required: false. *)
Lemma longitude_omitted_accepted :
  longitude standup = Undefined /\
  required eventSchema.longitude = RequiredBool false /\
  validate standup = Ok (applyDefaults standup).
Proof. repeat split. Qed.

(** Taking longitude away changes none of the errors of a candidate
    whose values cast. *)
Lemma validateSync_longitude (c : InterfaceEvent) (x : field Number) :
  validateSync (applyDefaults (withLongitude c x)) =
  validateSync (applyDefaults (withLongitude c Undefined)).
Proof.
  destruct c. unfold validateSync.
  cbn [applyDefaults withLongitude title description attendees location
       latitude longitude recurring isRecurringEventException
       isBaseRecurringEvent recurrenceRuleId baseRecurringEventId allDay
       startDate endDate startTime endTime recurrance isPublic
       isRegisterable creatorId admins organization status].
  rewrite !(validatePath_optional (Key "longitude") eventSchema.longitude)
    by (try reflexivity; by left).
  reflexivity.
Qed.

(** C6, as the schema has it.  longitude is declared with required:
    false, so leaving it out is no reason for rejection: a candidate
    that is accepted with a longitude is accepted without it, and a
    candidate without longitude has no error at the path longitude. *)
Theorem longitude_optional (c : InterfaceEvent) :
  required eventSchema.longitude = RequiredBool false /\
  (forall x, accepted (withLongitude c x) ->
             accepted (withLongitude c Undefined)) /\
  (forall errors err,
     validate (withLongitude c Undefined) = Rejected errors ->
     err ∈ errors -> path err <> Key "longitude").
Proof.
  split; [reflexivity|split].
  - intros x. rewrite !accepted_iff. by rewrite validateSync_longitude.
  - intros errors err [-> _]%validate_Rejected Hin.
    error_cases Hin;
      (pose proof Hin as Hp;
       first [ apply validatePath_path in Hp
             | apply validateEntries_path in Hp ];
       intros E; rewrite E in Hp; try discriminate Hp;
       revert Hin;
       rewrite (validatePath_optional (Key "longitude") eventSchema.longitude)
         by (try reflexivity; by left);
       apply not_elem_of_nil).
Qed.

(** ** isBaseRecurringEvent and isRecurringEventException *)

(** C7.  Nothing in the schema relates isBaseRecurringEvent to
    isRecurringEventException: a candidate with both flags true is
    accepted, and in general the boolean values of the two flags have
    no influence on whether a candidate is accepted. *)
Theorem flags_not_exclusive :
  (exists c, isBaseRecurringEvent c = Val true /\
             isRecurringEventException c = Val true /\
             accepted c) /\
  (forall c e b e' b',
     accepted (withFlags c (Val e) (Val b)) <->
     accepted (withFlags c (Val e') (Val b'))).
Proof.
  split.
  - exists (withFlags standup (Val true) (Val true)).
    split; [reflexivity|]. split; [reflexivity|].
    eexists. reflexivity.
  - intros c e b e' b'. rewrite !accepted_iff.
    assert (forall x y, validateSync (applyDefaults (withFlags c (Val x) (Val y)))
                        = validateSync (applyDefaults
                                          (withFlags c (Val true) (Val true))))
      as Hflags.
    { intros x y. destruct c. reflexivity. }
    by rewrite (Hflags e b), (Hflags e' b').
Qed.

(** ** admins *)

(** C10.  The admins array may be empty.  The stand-up with an empty
    admins array is accepted; a candidate with an empty admins array
    has no error under admins; and every error under admins belongs to
    an entry of the array that is undefined or null. *)
Theorem admins_may_be_empty :
  accepted (withAdmins standup (Val [])) /\
  (forall c errors err, admins c = Val [] ->
     validate c = Rejected errors -> err ∈ errors ->
     pathName (path err) <> "admins") /\
  (forall c errors err,
     validate c = Rejected errors -> err ∈ errors ->
     pathName (path err) = "admins" ->
     exists l i x, admins c = Val l /\ l !! i = Some x /\ absent x /\
                   err = {| path := Entry "admins" i; kind := KindRequired |}).
Proof.
  assert (forall c errors err,
     validate c = Rejected errors -> err ∈ errors ->
     pathName (path err) = "admins" ->
     exists l i x, admins c = Val l /\ l !! i = Some x /\ absent x /\
                   err = {| path := Entry "admins" i; kind := KindRequired |})
    as Hentries.
  { intros c errors err [-> _]%validate_Rejected Hin Hname.
    error_cases Hin;
      try (apply validatePath_path in Hin; rewrite Hin in Hname;
           discriminate Hname).
    apply validateEntries_elem in Hin as (l & i & x & Hl & Hi & Hin).
    exists l, i, x.
    assert (admins c = Val l) as Hc.
    { destruct c as [? ? ? ? ? ? ? ? ? ? ? ? ? ? ? ? ? ? ? ? a]. cbn in Hl |- *.
      destruct a; [|done..]. injection Hl as <-. discriminate Hi. }
    split; [done|]. split; [done|].
    destruct x as [| |o]; cbn in Hin.
    - apply list_elem_of_singleton in Hin. split; [by left|done].
    - apply list_elem_of_singleton in Hin. split; [by right|done].
    - by apply not_elem_of_nil in Hin. }
  split; [eexists; reflexivity|]. split; [|exact Hentries].
  intros c errors err Ha Hv Hin Hname.
  destruct (Hentries c errors err Hv Hin Hname) as (l & i & x & Hl & Hi & _).
  rewrite Ha in Hl. injection Hl as <-. discriminate Hi.
Qed.

(** An entry that is null is reported under its own index. *)
Example admins_null_entry_rejected :
  validate (withAdmins standup (Val [Val user1; Null])) =
  Rejected [ {| path := Entry "admins" 1; kind := KindRequired |} ].
Proof. reflexivity. Qed.

(** ** The export of the model *)

Lemma Event_registered (g : Mongoose) (schema : nat) (m : Model) :
  models g !! "Event" = Some m -> Event schema g = (inr m, g).
Proof. intros Hm. unfold Event, bind, getModels, ret. cbn. by rewrite Hm. Qed.

Lemma Event_fresh (g : Mongoose) (schema : nat) :
  models g !! "Event" = None ->
  Event schema g =
  (inr {| modelName := "Event"; modelSchema := schema;
          modelObject := nextObject g |},
   {| models := <["Event" :=
                   {| modelName := "Event"; modelSchema := schema;
                      modelObject := nextObject g |}]> (models g);
      nextObject := S (nextObject g) |}).
Proof.
  intros Hm.
  unfold Event, eventModel, model, bind, getModels, newObject, setModel, ret.
  cbn. rewrite Hm. cbn. rewrite Hm. reflexivity.
Qed.

(** Without the guard, a second execution of the module asks mongoose
    to register "Event" with a new schema and fails: the error the
    comment on line 193 speaks of. *)
Lemma loadModuleUnguarded_twice (g : Mongoose) :
  models g !! "Event" = None ->
  exists h g1 g2,
    loadModuleUnguarded g = (inr h, g1) /\
    loadModuleUnguarded g1 = (inl (OverwriteModelError "Event"), g2).
Proof.
  intros Hm. do 3 eexists.
  unfold loadModuleUnguarded, newSchema, eventModel, model, bind, getModels,
    newObject, setModel, ret, throw.
  cbn. rewrite Hm. split; [reflexivity|].
  cbn. rewrite lookup_insert_eq. cbn.
  destruct (decide (nextObject g = S (S (nextObject g)))) as [E|_]; [lia|].
  reflexivity.
Qed.

(** C5.  The export is idempotent over the registry.  From any state
    of mongoose, evaluating the export returns a model and leaves it
    registered under "Event"; a model that was registered already is
    returned as it is and nothing changes; evaluating the export again,
    or executing the whole module twice in a row, gives the same model
    both times and registers nothing more. *)
Theorem Event_idempotent (g : Mongoose) (schema schema' : nat) :
  (exists h g1,
     Event schema g = (inr h, g1) /\
     Event schema' g1 = (inr h, g1) /\
     models g1 !! "Event" = Some h /\
     (forall m, models g !! "Event" = Some m -> h = m /\ g1 = g) /\
     (models g !! "Event" = None ->
        modelObject h = nextObject g /\
        models g1 = <["Event" := h]> (models g))) /\
  (exists h g1 g2,
     loadModule g = (inr h, g1) /\
     loadModule g1 = (inr h, g2) /\
     models g2 = models g1).
Proof.
  split.
  - destruct (models g !! "Event") as [m|] eqn:Hm.
    + exists m, g. rewrite (Event_registered g schema m Hm).
      rewrite (Event_registered g schema' m Hm).
      split; [reflexivity|]. split; [reflexivity|]. split; [exact Hm|].
      split; [by intros ? [= <-]|]. intros [=].
    + rewrite (Event_fresh g schema Hm). do 2 eexists.
      split; [reflexivity|].
      split; [apply Event_registered; cbn; apply lookup_insert_eq|].
      split; [cbn; apply lookup_insert_eq|].
      split; [intros ? [=]|]. by intros _.
  - pose (g' := {| models := models g; nextObject := S (nextObject g) |}).
    change (loadModule g) with (Event (nextObject g) g').
    destruct (models g !! "Event") as [m|] eqn:Hm.
    + exists m, g'. eexists.
      split; [by apply Event_registered|].
      change (loadModule g') with
        (Event (nextObject g')
           {| models := models g'; nextObject := S (nextObject g') |}).
      split; [by apply Event_registered|reflexivity].
    + rewrite (Event_fresh g' (nextObject g) Hm). do 3 eexists.
      split; [reflexivity|].
      match goal with
      | |- loadModule ?g1 = _ /\ _ =>
          change (loadModule g1) with
            (Event (nextObject g1)
               {| models := models g1; nextObject := S (nextObject g1) |})
      end.
      split; [apply Event_registered; cbn; apply lookup_insert_eq|reflexivity].
Qed.

(** Two executions of the module in a new process. *)
Example loadModule_twice :
  fst (loadModule emptyMongoose) =
    inr {| modelName := "Event"; modelSchema := 0; modelObject := 1 |} /\
  fst (loadModule (snd (loadModule emptyMongoose))) =
    inr {| modelName := "Event"; modelSchema := 0; modelObject := 1 |}.
Proof. split; reflexivity. Qed.

(** * Further properties of the schema *)

(** ** Required keys without a default *)

Lemma validatePath_required_absent {A : Type} `{SchemaType A} (p : Path)
    (o : SchemaTypeOptions A) (this : InterfaceEvent) (v : field A) :
  required o = RequiredBool true -> absent v ->
  validatePath p o this v = [ {| path := p; kind := KindRequired |} ].
Proof.
  intros Hr Hv. unfold validatePath, validators. rewrite Hr.
  by destruct Hv as [-> | ->].
Qed.

(** A path reports nothing exactly when all of its validators pass. *)
Lemma validatePath_nil_required {A : Type} `{SchemaType A} (p : Path)
    (o : SchemaTypeOptions A) (this : InterfaceEvent) (v : field A) :
  required o = RequiredBool true -> enum o = None ->
  validatePath p o this v = [] <-> checkRequiredValue v = true.
Proof.
  intros Hr He. unfold validatePath, validators. rewrite Hr, He. cbn.
  destruct (checkRequiredValue v); cbn; split; congruence.
Qed.

(** X2.  allDay, startDate, isPublic, isRegisterable, creatorId and
    organization are required and have no default: a candidate that
    omits one of them, or sets it to null, is rejected with the
    missing-required error of that key. *)
Theorem required_keys_missing (c : InterfaceEvent) :
  (absent (allDay c) -> rejectedWith c (Key "allDay") MissingRequiredField) /\
  (absent (startDate c) ->
     rejectedWith c (Key "startDate") MissingRequiredField) /\
  (absent (isPublic c) -> rejectedWith c (Key "isPublic") MissingRequiredField) /\
  (absent (isRegisterable c) ->
     rejectedWith c (Key "isRegisterable") MissingRequiredField) /\
  (absent (creatorId c) ->
     rejectedWith c (Key "creatorId") MissingRequiredField) /\
  (absent (organization c) ->
     rejectedWith c (Key "organization") MissingRequiredField).
Proof.
  repeat split; intros Hv.
  - apply (rejectedWith_intro c {| path := Key "allDay"; kind := KindRequired |});
      [|reflexivity|by vm_compute].
    report_with ltac:(
      rewrite (validatePath_required_absent (Key "allDay") eventSchema.allDay);
      [by apply list_elem_of_singleton|reflexivity|destruct c; exact Hv]).
  - apply (rejectedWith_intro c
             {| path := Key "startDate"; kind := KindRequired |});
      [|reflexivity|by vm_compute].
    report_with ltac:(
      rewrite (validatePath_required_absent (Key "startDate")
                 eventSchema.startDate);
      [by apply list_elem_of_singleton|reflexivity|destruct c; exact Hv]).
  - apply (rejectedWith_intro c
             {| path := Key "isPublic"; kind := KindRequired |});
      [|reflexivity|by vm_compute].
    report_with ltac:(
      rewrite (validatePath_required_absent (Key "isPublic")
                 eventSchema.isPublic);
      [by apply list_elem_of_singleton|reflexivity|destruct c; exact Hv]).
  - apply (rejectedWith_intro c
             {| path := Key "isRegisterable"; kind := KindRequired |});
      [|reflexivity|by vm_compute].
    report_with ltac:(
      rewrite (validatePath_required_absent (Key "isRegisterable")
                 eventSchema.isRegisterable);
      [by apply list_elem_of_singleton|reflexivity|destruct c; exact Hv]).
  - apply (rejectedWith_intro c
             {| path := Key "creatorId"; kind := KindRequired |});
      [|reflexivity|by vm_compute].
    report_with ltac:(
      rewrite (validatePath_required_absent (Key "creatorId")
                 eventSchema.creatorId);
      [by apply list_elem_of_singleton|reflexivity|destruct c; exact Hv]).
  - apply (rejectedWith_intro c
             {| path := Key "organization"; kind := KindRequired |});
      [|reflexivity|by vm_compute].
    report_with ltac:(
      rewrite (validatePath_required_absent (Key "organization")
                 eventSchema.organization);
      [by apply list_elem_of_singleton|reflexivity|destruct c; exact Hv]).
Qed.

Lemma required_keys_missing_witness :
  rejectedWith (withAllDay standup Null) (Key "allDay") MissingRequiredField.
Proof.
  apply (proj1 (required_keys_missing (withAllDay standup Null))).
  right. reflexivity.
Defined.

(** ** Required keys with a default *)

(** An error reported under a key comes from the validators of that
    key: the other cases of [error_cases] are closed by their path. *)
Ltac error_at_path Hin Hp :=
  error_cases Hin;
  try (let Hq := fresh "Hq" in
       pose proof Hin as Hq;
       first [ apply validatePath_path in Hq
             | apply validateEntries_path in Hq ];
       rewrite Hp in Hq; discriminate Hq).

Lemma rejectedWith_elim (c : InterfaceEvent) (p : Path) (e : ValidationError) :
  rejectedWith c p e ->
  exists err, err ∈ validateSync (applyDefaults c) /\
              path err = p /\ classify err = e.
Proof.
  intros (errors & err & [-> _]%validate_Rejected & Hin & Hp & He).
  by exists err.
Qed.

(** X3.  recurring, isRecurringEventException, isBaseRecurringEvent and
    status are required but have a default.  The default covers a key
    that is left out, not one that is null: the missing-required error
    of each flag is reported exactly when the candidate sets it to
    null, and that of status exactly when status is null or the empty
    string. *)
Theorem defaulted_keys_missing (c : InterfaceEvent) :
  (rejectedWith c (Key "recurring") MissingRequiredField <->
     recurring c = Null) /\
  (rejectedWith c (Key "isRecurringEventException") MissingRequiredField <->
     isRecurringEventException c = Null) /\
  (rejectedWith c (Key "isBaseRecurringEvent") MissingRequiredField <->
     isBaseRecurringEvent c = Null) /\
  (rejectedWith c (Key "status") MissingRequiredField <->
     status c = Null \/ status c = Val "").
Proof.
  split; [|split; [|split]]; split.
  - intros (err & Hin & Hp & _)%rejectedWith_elim.
    error_at_path Hin Hp. destruct c as [? ? ? ? ? ? r]. cbn in Hin |- *.
    destruct r as [| |b]; [|done|]; by apply not_elem_of_nil in Hin.
  - intros Hv.
    apply (rejectedWith_intro c {| path := Key "recurring"; kind := KindRequired |});
      [|reflexivity|by vm_compute].
    destruct c; cbn in Hv; subst. report_at_path.
  - intros (err & Hin & Hp & _)%rejectedWith_elim.
    error_at_path Hin Hp. destruct c as [? ? ? ? ? ? ? r]. cbn in Hin |- *.
    destruct r as [| |b]; [|done|]; by apply not_elem_of_nil in Hin.
  - intros Hv.
    apply (rejectedWith_intro c
             {| path := Key "isRecurringEventException"; kind := KindRequired |});
      [|reflexivity|by vm_compute].
    destruct c; cbn in Hv; subst. report_at_path.
  - intros (err & Hin & Hp & _)%rejectedWith_elim.
    error_at_path Hin Hp. destruct c as [? ? ? ? ? ? ? ? r]. cbn in Hin |- *.
    destruct r as [| |b]; [|done|]; by apply not_elem_of_nil in Hin.
  - intros Hv.
    apply (rejectedWith_intro c
             {| path := Key "isBaseRecurringEvent"; kind := KindRequired |});
      [|reflexivity|by vm_compute].
    destruct c; cbn in Hv; subst. report_at_path.
  - intros (err & Hin & Hp & He)%rejectedWith_elim.
    error_at_path Hin Hp.
    destruct c as [? ? ? ? ? ? ? ? ? ? ? ? ? ? ? ? ? ? ? ? ? ? s].
    cbn [applyDefaults status applyDefault default eventSchema.status] in Hin.
    cbn [status].
    destruct s as [| |s]; [by apply not_elem_of_nil in Hin|by left|].
    right. f_equal.
    destruct (decide (s ∈ statusValues)) as [Hs|Hs].
    + exfalso. revert Hin. unfold validatePath. cbn.
      assert ((String.length s =? 0)%nat = false) as ->.
      { apply string_nonempty. intros ->. revert Hs.
        apply (bool_decide_eq_false_1 ("" ∈ statusValues)). reflexivity. }
      cbn. rewrite bool_decide_true by done. apply not_elem_of_nil.
    + rewrite (validatePath_status_outside _ s Hs) in Hin.
      apply list_elem_of_singleton in Hin. subst err.
      destruct s as [|a s]; [done|]. exfalso. revert He. by vm_compute.
  - intros Hv.
    apply (rejectedWith_intro c {| path := Key "status"; kind := KindRequired |});
      [|reflexivity|by vm_compute].
    destruct c; cbn in Hv; subst. destruct Hv as [-> | ->]; report_at_path.
Qed.

Lemma defaulted_keys_missing_witness :
  rejectedWith (withRecurrence standup Null Undefined)
    (Key "recurring") MissingRequiredField /\
  rejectedWith (withStatus standup (Val "")) (Key "status") MissingRequiredField.
Proof.
  split.
  - apply (proj1 (defaulted_keys_missing (withRecurrence standup Null Undefined))).
    reflexivity.
  - apply (proj2 (proj2 (proj2
             (defaulted_keys_missing (withStatus standup (Val "")))))).
    right. reflexivity.
Defined.

(** ** One error per path *)







(** ** Defaults and validation together *)

Lemma applyDefault_idempotent {A : Type} (o : SchemaTypeOptions A) (v : field A) :
  applyDefault o (applyDefault o v) = applyDefault o v.
Proof. unfold applyDefault. by destruct (default o), v. Qed.

Lemma applyDefaults_idempotent (c : InterfaceEvent) :
  applyDefaults (applyDefaults c) = applyDefaults c.
Proof.
  destruct c as [? ? ? ? ? ? ? ? ? ? ? ? ? ? ? ? ? ? ? ? a ? ?].
  unfold applyDefaults.
  cbn [title description attendees location latitude longitude recurring
       isRecurringEventException isBaseRecurringEvent recurrenceRuleId
       baseRecurringEventId allDay startDate endDate startTime endTime
       recurrance isPublic isRegisterable creatorId admins organization status].
  rewrite !applyDefault_idempotent. by destruct a.
Qed.

(** X5.  Filling in the defaults is idempotent, so validation does not
    care whether it is given a candidate or the document already built
    from it; in particular a validated event, validated again, is
    accepted unchanged. *)
Theorem validate_defaults_stable (c : InterfaceEvent) :
  applyDefaults (applyDefaults c) = applyDefaults c /\
  validate (applyDefaults c) = validate c /\
  (forall d, validate c = Ok d -> validate d = Ok d).
Proof.
  assert (validate (applyDefaults c) = validate c) as Hstable.
  { unfold validate. by rewrite applyDefaults_idempotent. }
  split; [apply applyDefaults_idempotent|]. split; [exact Hstable|].
  intros d Hd. pose proof Hd as [-> _]%validate_Ok. by rewrite Hstable.
Qed.

Lemma validate_defaults_stable_witness :
  validate (applyDefaults standup) = Ok (applyDefaults standup).
Proof.
  apply (proj2 (proj2 (validate_defaults_stable standup))). reflexivity.
Defined.

(** ** The required functions of startTime and endTime *)

(** X6.  The conditional error of startTime (endTime) is reported
    exactly when allDay is anything but true, be it false, null or left
    out, and the time is undefined or null. *)
Theorem time_error_iff (c : InterfaceEvent) :
  (rejectedWith c (Key "startTime") ConditionalRequirementUnmet <->
     allDay c <> Val true /\ absent (startTime c)) /\
  (rejectedWith c (Key "endTime") ConditionalRequirementUnmet <->
     allDay c <> Val true /\ absent (endTime c)).
Proof.
  split; split.
  - intros (err & Hin & Hp & _)%rejectedWith_elim.
    error_at_path Hin Hp.
    rewrite (validatePath_time_required (Key "startTime")
               eventSchema.startTime startTime_required) in Hin by reflexivity.
    destruct c as [? ? ? ? ? ? ? ? ? ? ? a ? ? t ?].
    cbn in Hin |- *. unfold startTime_required in Hin. cbn in Hin.
    destruct a as [| |[|]]; cbn in Hin;
      try (by apply not_elem_of_nil in Hin);
      (split; [done|]);
      destruct t; cbn in Hin; try (by apply not_elem_of_nil in Hin);
      first [by left|by right].
  - intros [Ha Hv].
    apply (rejectedWith_intro c
             {| path := Key "startTime"; kind := KindRequired |});
      [|reflexivity|by vm_compute].
    destruct c as [? ? ? ? ? ? ? ? ? ? ? a ? ? t ?]. cbn in Ha, Hv.
    report_with ltac:(
      rewrite (validatePath_time_required (Key "startTime")
                 eventSchema.startTime startTime_required) by reflexivity;
      cbn; rewrite (proj1 (absent_isAbsent _) Hv);
      unfold startTime_required; cbn;
      destruct a as [| |[|]]; try done; by apply list_elem_of_singleton).
  - intros (err & Hin & Hp & _)%rejectedWith_elim.
    error_at_path Hin Hp.
    rewrite (validatePath_time_required (Key "endTime")
               eventSchema.endTime endTime_required) in Hin by reflexivity.
    destruct c as [? ? ? ? ? ? ? ? ? ? ? a ? ? ? t].
    cbn in Hin |- *. unfold endTime_required in Hin. cbn in Hin.
    destruct a as [| |[|]]; cbn in Hin;
      try (by apply not_elem_of_nil in Hin);
      (split; [done|]);
      destruct t; cbn in Hin; try (by apply not_elem_of_nil in Hin);
      first [by left|by right].
  - intros [Ha Hv].
    apply (rejectedWith_intro c
             {| path := Key "endTime"; kind := KindRequired |});
      [|reflexivity|by vm_compute].
    destruct c as [? ? ? ? ? ? ? ? ? ? ? a ? ? ? t]. cbn in Ha, Hv.
    report_with ltac:(
      rewrite (validatePath_time_required (Key "endTime")
                 eventSchema.endTime endTime_required) by reflexivity;
      cbn; rewrite (proj1 (absent_isAbsent _) Hv);
      unfold endTime_required; cbn;
      destruct a as [| |[|]]; try done; by apply list_elem_of_singleton).
Qed.

Lemma time_error_iff_witness :
  rejectedWith (withAllDay standup Undefined)
    (Key "startTime") ConditionalRequirementUnmet /\
  rejectedWith (withAllDay standup Null)
    (Key "endTime") ConditionalRequirementUnmet.
Proof.
  split.
  - apply (proj1 (time_error_iff (withAllDay standup Undefined))).
    split; [discriminate|]. left. reflexivity.
  - apply (proj2 (time_error_iff (withAllDay standup Null))).
    split; [discriminate|]. left. reflexivity.
Defined.

(** ** Which error can be reported where *)





(** ** Entries of admins *)

(** X8.  The required option of the admins entries is checked entry by
    entry: a candidate whose admins array holds an undefined or null
    entry is rejected with the missing-required error of that entry,
    reported under the index of the entry. *)
Theorem admins_absent_entry_rejected (c : InterfaceEvent)
    (l : list (field ObjectId)) (i : nat) (x : field ObjectId) :
  admins c = Val l -> l !! i = Some x -> absent x ->
  rejectedWith c (Entry "admins" i) MissingRequiredField.
Proof.
  intros Hl Hi Hx.
  apply (rejectedWith_intro c {| path := Entry "admins" i; kind := KindRequired |});
    [|reflexivity|by vm_compute].
  apply validateSync_elem. do 20 right. left.
  apply validateEntries_elem. exists l, i, x.
  split; [by destruct c; cbn in Hl |- *; subst|]. split; [done|].
  rewrite (validatePath_required_absent (Entry "admins" i) eventSchema.admins)
    by done.
  by apply list_elem_of_singleton.
Qed.

Lemma admins_absent_entry_rejected_witness :
  rejectedWith (withAdmins standup (Val [Val user1; Null]))
    (Entry "admins" 1) MissingRequiredField.
Proof.
  apply (admins_absent_entry_rejected
           (withAdmins standup (Val [Val user1; Null]))
           [Val user1; Null] 1 Null eq_refl eq_refl).
  right. reflexivity.
Defined.

(** ** What acceptance requires *)

Lemma accepted_components (c : InterfaceEvent) :
  accepted c <->
  validatePath (Key "title") eventSchema.title (applyDefaults c)
    (applyDefault eventSchema.title (title c)) = [] /\
  validatePath (Key "description") eventSchema.description (applyDefaults c)
    (applyDefault eventSchema.description (description c)) = [] /\
  validatePath (Key "attendees") eventSchema.attendees (applyDefaults c)
    (applyDefault eventSchema.attendees (attendees c)) = [] /\
  validatePath (Key "location") eventSchema.location (applyDefaults c)
    (applyDefault eventSchema.location (location c)) = [] /\
  validatePath (Key "latitude") eventSchema.latitude (applyDefaults c)
    (applyDefault eventSchema.latitude (latitude c)) = [] /\
  validatePath (Key "longitude") eventSchema.longitude (applyDefaults c)
    (applyDefault eventSchema.longitude (longitude c)) = [] /\
  validatePath (Key "recurring") eventSchema.recurring (applyDefaults c)
    (applyDefault eventSchema.recurring (recurring c)) = [] /\
  validatePath (Key "isRecurringEventException")
    eventSchema.isRecurringEventException (applyDefaults c)
    (applyDefault eventSchema.isRecurringEventException
       (isRecurringEventException c)) = [] /\
  validatePath (Key "isBaseRecurringEvent")
    eventSchema.isBaseRecurringEvent (applyDefaults c)
    (applyDefault eventSchema.isBaseRecurringEvent
       (isBaseRecurringEvent c)) = [] /\
  validatePath (Key "recurrenceRuleId") eventSchema.recurrenceRuleId
    (applyDefaults c)
    (applyDefault eventSchema.recurrenceRuleId (recurrenceRuleId c)) = [] /\
  validatePath (Key "baseRecurringEventId") eventSchema.baseRecurringEventId
    (applyDefaults c)
    (applyDefault eventSchema.baseRecurringEventId
       (baseRecurringEventId c)) = [] /\
  validatePath (Key "allDay") eventSchema.allDay (applyDefaults c)
    (applyDefault eventSchema.allDay (allDay c)) = [] /\
  validatePath (Key "startDate") eventSchema.startDate (applyDefaults c)
    (applyDefault eventSchema.startDate (startDate c)) = [] /\
  validatePath (Key "endDate") eventSchema.endDate (applyDefaults c)
    (applyDefault eventSchema.endDate (endDate c)) = [] /\
  validatePath (Key "startTime") eventSchema.startTime (applyDefaults c)
    (applyDefault eventSchema.startTime (startTime c)) = [] /\
  validatePath (Key "endTime") eventSchema.endTime (applyDefaults c)
    (applyDefault eventSchema.endTime (endTime c)) = [] /\
  validatePath (Key "recurrance") eventSchema.recurrance (applyDefaults c)
    (applyDefault eventSchema.recurrance (recurrance c)) = [] /\
  validatePath (Key "isPublic") eventSchema.isPublic (applyDefaults c)
    (applyDefault eventSchema.isPublic (isPublic c)) = [] /\
  validatePath (Key "isRegisterable") eventSchema.isRegisterable
    (applyDefaults c)
    (applyDefault eventSchema.isRegisterable (isRegisterable c)) = [] /\
  validatePath (Key "creatorId") eventSchema.creatorId (applyDefaults c)
    (applyDefault eventSchema.creatorId (creatorId c)) = [] /\
  validateEntries "admins" eventSchema.admins (applyDefaults c)
    (match admins c with Undefined => Val [] | v => v end) = [] /\
  validatePath (Key "organization") eventSchema.organization (applyDefaults c)
    (applyDefault eventSchema.organization (organization c)) = [] /\
  validatePath (Key "status") eventSchema.status (applyDefaults c)
    (applyDefault eventSchema.status (status c)) = [].
Proof.
  rewrite accepted_iff. unfold validateSync. rewrite !app_nil. reflexivity.
Qed.

Lemma not_absent_Val {A : Type} (v : field A) :
  ~ absent v <-> exists a, v = Val a.
Proof.
  split.
  - destruct v as [| |a]; intros Hv;
      [exfalso; apply Hv; by left|exfalso; apply Hv; by right|by exists a].
  - intros [a ->] [?|?]; discriminate.
Qed.

Lemma validatePath_nil_optional {A : Type} `{SchemaType A} (p : Path)
    (o : SchemaTypeOptions A) (this : InterfaceEvent) (v : field A) :
  required o = RequiredBool false \/ required o = RequiredUnset ->
  enum o = None ->
  validatePath p o this v = [] <-> True.
Proof. intros Hr He. by rewrite validatePath_optional. Qed.

Lemma validatePath_nil_string (p : Path) (o : SchemaTypeOptions string)
    (this : InterfaceEvent) (v : field string) :
  required o = RequiredBool true -> enum o = None -> default o = None ->
  validatePath p o this (applyDefault o v) = [] <->
  exists s, v = Val s /\ s <> "".
Proof.
  intros Hr He Hd. rewrite validatePath_nil_required by done.
  unfold applyDefault. rewrite Hd. destruct v as [| |s]; cbn.
  - split; [done|]. by intros (s & ? & _).
  - split; [done|]. by intros (s & ? & _).
  - destruct s as [|a s]; cbn.
    + split; [done|]. by intros (s & [= <-] & Hs).
    + split; [|done]. intros _. by eexists.
Qed.

Lemma validatePath_nil_present {A : Type} `{SchemaType A} (p : Path)
    (o : SchemaTypeOptions A) (this : InterfaceEvent) (v : field A) :
  (forall a, checkRequired a = true) ->
  required o = RequiredBool true -> enum o = None -> default o = None ->
  validatePath p o this (applyDefault o v) = [] <-> ~ absent v.
Proof.
  intros Hc Hr He Hd. rewrite validatePath_nil_required by done.
  unfold applyDefault. rewrite Hd, not_absent_Val. destruct v as [| |a]; cbn.
  - split; [done|]. by intros [a ?].
  - split; [done|]. by intros [a ?].
  - rewrite Hc. split; [|done]. intros _. by exists a.
Qed.

Lemma validatePath_nil_defaulted {A : Type} `{SchemaType A} (p : Path)
    (o : SchemaTypeOptions A) (this : InterfaceEvent) (v : field A) (d : A) :
  (forall a, checkRequired a = true) ->
  required o = RequiredBool true -> enum o = None -> default o = Some d ->
  validatePath p o this (applyDefault o v) = [] <-> v <> Null.
Proof.
  intros Hc Hr He Hd. rewrite validatePath_nil_required by done.
  unfold applyDefault. rewrite Hd. destruct v as [| |a]; cbn.
  - by rewrite Hc.
  - split; [done|]. by intros Hn.
  - by rewrite Hc.
Qed.

Lemma validatePath_nil_time (p : Path) (o : SchemaTypeOptions Date)
    (f : InterfaceEvent -> bool) (this : InterfaceEvent) (v : field Date) :
  required o = RequiredFn f -> enum o = None -> default o = None ->
  validatePath p o this (applyDefault o v) = [] <->
  f this = false \/ ~ absent v.
Proof.
  intros Hr He Hd. rewrite (validatePath_time_required p o f) by done.
  unfold applyDefault. rewrite Hd, not_absent_Val.
  destruct (f this), v as [| |a]; cbn; split; try done.
  - by intros [?|[a ?]].
  - by intros [?|[a ?]].
  - intros _. right. by exists a.
  - intros _. by left.
  - intros _. by left.
  - intros _. by left.
Qed.

Lemma validatePath_nil_recurrance (this : InterfaceEvent) (v : field string) :
  v <> Null ->
  validatePath (Key "recurrance") eventSchema.recurrance this
    (applyDefault eventSchema.recurrance v) = [] <->
  forall s, v = Val s -> s ∈ recurranceValues.
Proof.
  intros Hn. destruct v as [| |s]; [|done|].
  - split; [done|]. intros _. cbn [applyDefault default eventSchema.recurrance].
    apply validatePath_recurrance_inside.
    by apply (bool_decide_unpack _).
  - cbn [applyDefault default eventSchema.recurrance].
    destruct (decide (s ∈ recurranceValues)) as [Hs|Hs].
    + rewrite validatePath_recurrance_inside by done.
      split; [|done]. by intros _ ? [= <-].
    + rewrite validatePath_recurrance_outside by done.
      split; [done|]. intros Hall. destruct Hs. by apply Hall.
Qed.

Lemma validatePath_nil_status (this : InterfaceEvent) (v : field string) :
  validatePath (Key "status") eventSchema.status this
    (applyDefault eventSchema.status v) = [] <->
  v <> Null /\ forall s, v = Val s -> s ∈ statusValues.
Proof.
  destruct v as [| |s]; cbn [applyDefault default eventSchema.status].
  - split; [|done]. intros _. split; [done|]. by intros s [=].
  - split; [done|]. by intros [? _].
  - destruct (decide (s ∈ statusValues)) as [Hs|Hs].
    + split; [intros _; split; [done|]; by intros ? [= <-]|].
      intros _. unfold validatePath. cbn.
      assert ((String.length s =? 0)%nat = false) as ->.
      { apply string_nonempty. intros ->. revert Hs.
        apply (bool_decide_eq_false_1 ("" ∈ statusValues)). reflexivity. }
      cbn. by rewrite bool_decide_true.
    + rewrite validatePath_status_outside by done.
      split; [done|]. intros [_ Hall]. destruct Hs. by apply Hall.
Qed.

Lemma validateEntries_nil_admins (this : InterfaceEvent)
    (v : field (list (field ObjectId))) :
  validateEntries "admins" eventSchema.admins this
    (match v with Undefined => Val [] | Null => Null | Val l => Val l end) = []
  <->
  forall l x, v = Val l -> x ∈ l -> ~ absent x.
Proof.
  split.
  - intros Hnil l x -> Hx Habs.
    apply list_elem_of_lookup in Hx as [i Hi].
    assert ({| path := Entry "admins" i; kind := KindRequired |}
            ∈ validateEntries "admins" eventSchema.admins this (Val l)) as Hin.
    { apply validateEntries_elem. exists l, i, x. split; [done|]. split; [done|].
      rewrite (validatePath_required_absent (Entry "admins" i)
                 eventSchema.admins) by done.
      by apply list_elem_of_singleton. }
    rewrite Hnil in Hin. by apply not_elem_of_nil in Hin.
  - intros Hall. apply elem_of_nil_inv. intros err Hin.
    apply validateEntries_elem in Hin as (l & i & x & Hl & Hi & Hin).
    destruct v as [| |l']; [|done|].
    + injection Hl as <-. discriminate Hi.
    + injection Hl as <-.
      assert (x ∈ l') as Hx by (apply list_elem_of_lookup; by exists i).
      apply (Hall l' x eq_refl) in Hx.
      apply not_absent_Val in Hx as [a ->].
      revert Hin. cbn. apply not_elem_of_nil.
Qed.

Lemma truthy_false (v : field bool) :
  negb (truthy v) = false <-> v = Val true.
Proof. destruct v as [| |[|]]; cbn; split; congruence. Qed.

Lemma validatePath_nil_recurrance_null (this : InterfaceEvent) :
  validatePath (Key "recurrance") eventSchema.recurrance this
    (applyDefault eventSchema.recurrance Null) = [] ->
  recurrance_required this = false.
Proof.
  unfold validatePath. cbn. by destruct (recurrance_required this).
Qed.

(** X1.  What acceptance requires.  In every accepted candidate title
    and description are non-empty strings; recurring and the two
    recurrence flags are not null; allDay, startDate, isPublic,
    isRegisterable, creatorId and organization are there; startTime
    and endTime are there unless allDay is true; recurrance, if given,
    is one of its five values, and is not null when recurring is true;
    no entry of admins is undefined or null; and status is left out or
    one of its three values. *)
Theorem accepted_requires (c : InterfaceEvent) :
  accepted c ->
  (exists s, title c = Val s /\ s <> "") /\
  (exists s, description c = Val s /\ s <> "") /\
  recurring c <> Null /\
  isRecurringEventException c <> Null /\
  isBaseRecurringEvent c <> Null /\
  ~ absent (allDay c) /\
  ~ absent (startDate c) /\
  (allDay c = Val true \/ ~ absent (startTime c) /\ ~ absent (endTime c)) /\
  (forall s, recurrance c = Val s -> s ∈ recurranceValues) /\
  (recurrance c = Null -> recurring c <> Val true) /\
  ~ absent (isPublic c) /\
  ~ absent (isRegisterable c) /\
  ~ absent (creatorId c) /\
  (forall l x, admins c = Val l -> x ∈ l -> ~ absent x) /\
  ~ absent (organization c) /\
  (status c <> Null /\ forall s, status c = Val s -> s ∈ statusValues).
Proof.
  intros Hacc. apply accepted_components in Hacc.
  destruct Hacc as (Htitle & Hdescription & _ & _ & _ & _ & Hrecurring &
                    Hexception & Hbase & _ & _ & HallDay & HstartDate & _ &
                    HstartTime & HendTime & Hrecurrance & HisPublic &
                    HisRegisterable & HcreatorId & Hadmins & Horganization &
                    Hstatus).
  apply validatePath_nil_string in Htitle; [|reflexivity..].
  apply validatePath_nil_string in Hdescription; [|reflexivity..].
  apply (validatePath_nil_defaulted _ _ _ _ false) in Hrecurring;
    [|reflexivity..].
  apply (validatePath_nil_defaulted _ _ _ _ false) in Hexception;
    [|reflexivity..].
  apply (validatePath_nil_defaulted _ _ _ _ false) in Hbase; [|reflexivity..].
  apply validatePath_nil_present in HallDay; [|reflexivity..].
  apply validatePath_nil_present in HstartDate; [|reflexivity..].
  apply (validatePath_nil_time _ _ startTime_required) in HstartTime;
    [|reflexivity..].
  apply (validatePath_nil_time _ _ endTime_required) in HendTime;
    [|reflexivity..].
  apply validatePath_nil_present in HisPublic; [|reflexivity..].
  apply validatePath_nil_present in HisRegisterable; [|reflexivity..].
  apply validatePath_nil_present in HcreatorId; [|reflexivity..].
  apply validatePath_nil_present in Horganization; [|reflexivity..].
  apply validatePath_nil_status in Hstatus.
  pose proof (proj1 (validateEntries_nil_admins _ _) Hadmins) as Hentries.
  change (startTime_required (applyDefaults c))
    with (negb (truthy (allDay c))) in HstartTime.
  change (endTime_required (applyDefaults c))
    with (negb (truthy (allDay c))) in HendTime.
  rewrite truthy_false in HstartTime, HendTime.
  assert ((forall s, recurrance c = Val s -> s ∈ recurranceValues) /\
          (recurrance c = Null -> recurring c <> Val true)) as [Hvalues Hnull].
  { destruct (recurrance c) as [| |s] eqn:Hr.
    - split; [by intros s [=]|by intros [=]].
    - split; [by intros s [=]|]. intros _ Htrue.
      apply validatePath_nil_recurrance_null in Hrecurrance.
      change (recurrance_required (applyDefaults c))
        with (truthy (applyDefault eventSchema.recurring (recurring c)))
        in Hrecurrance.
      by rewrite Htrue in Hrecurrance.
    - split; [|by intros [=]].
      assert (Val s <> Null) as Hn by done.
      exact (proj1 (validatePath_nil_recurrance _ _ Hn) Hrecurrance). }
  tauto.
Qed.

Lemma accepted_requires_witness :
  (exists s, title standup = Val s /\ s <> "") /\
  (exists s, description standup = Val s /\ s <> "") /\
  recurring standup <> Null /\
  isRecurringEventException standup <> Null /\
  isBaseRecurringEvent standup <> Null /\
  ~ absent (allDay standup) /\
  ~ absent (startDate standup) /\
  (allDay standup = Val true \/
   ~ absent (startTime standup) /\ ~ absent (endTime standup)) /\
  (forall s, recurrance standup = Val s -> s ∈ recurranceValues) /\
  (recurrance standup = Null -> recurring standup <> Val true) /\
  ~ absent (isPublic standup) /\
  ~ absent (isRegisterable standup) /\
  ~ absent (creatorId standup) /\
  (forall l x, admins standup = Val l -> x ∈ l -> ~ absent x) /\
  ~ absent (organization standup) /\
  (status standup <> Null /\
   forall s, status standup = Val s -> s ∈ statusValues).
Proof.
  apply (accepted_requires standup).
  exists (applyDefaults standup). reflexivity.
Defined.

(** * Further properties of the export *)

Lemma Event_cases (g : Mongoose) (schema : nat) :
  (exists m, models g !! "Event" = Some m /\ Event schema g = (inr m, g)) \/
  (models g !! "Event" = None /\
   Event schema g =
   (inr {| modelName := "Event"; modelSchema := schema;
           modelObject := nextObject g |},
    {| models := <["Event" :=
                    {| modelName := "Event"; modelSchema := schema;
                       modelObject := nextObject g |}]> (models g);
       nextObject := S (nextObject g) |})).
Proof.
  destruct (models g !! "Event") as [m|] eqn:Hm.
  - left. exists m. split; [done|]. by apply Event_registered.
  - right. split; [done|]. by apply Event_fresh.
Qed.

(** X9.  The export touches nothing but the entry "Event" of the
    registry: it never throws, the model it returns is named "Event",
    the models registered under other names stay as they are, and at
    most one new object is created. *)
Theorem Event_frame (g g1 : Mongoose) (schema : nat)
    (r : MongooseError + Model) :
  Event schema g = (r, g1) ->
  (exists h, r = inr h /\
             (models g !! "Event" = None -> modelName h = "Event")) /\
  (forall name, name <> "Event" -> models g1 !! name = models g !! name) /\
  nextObject g <= nextObject g1 <= S (nextObject g).
Proof.
  intros He.
  destruct (Event_cases g schema) as [(m & Hm & Hr)|[Hm Hr]];
    rewrite Hr in He; injection He as <- <-.
  - split; [exists m; split; [done|]; by rewrite Hm|].
    split; [done|lia].
  - split; [eexists; split; [done|]; done|].
    split; [|cbn; lia].
    intros name Hne. cbn. by rewrite lookup_insert_ne.
Qed.

Lemma Event_frame_witness :
  (exists h, fst (Event 0 emptyMongoose) = inr h /\
             (models emptyMongoose !! "Event" = None -> modelName h = "Event")) /\
  (forall name, name <> "Event" ->
     models (snd (Event 0 emptyMongoose)) !! name
     = models emptyMongoose !! name) /\
  nextObject emptyMongoose <= nextObject (snd (Event 0 emptyMongoose))
    <= S (nextObject emptyMongoose).
Proof.
  apply (Event_frame emptyMongoose (snd (Event 0 emptyMongoose)) 0
           (fst (Event 0 emptyMongoose))).
  reflexivity.
Defined.

Lemma allocated_newObject (g : Mongoose) :
  allocated g ->
  allocated {| models := models g; nextObject := S (nextObject g) |}.
Proof.
  intros Hg name m Hm. cbn in Hm |- *.
  destruct (Hg name m Hm). lia.
Qed.

Lemma allocated_Event (g : Mongoose) (schema : nat) :
  allocated g -> schema < nextObject g -> allocated (snd (Event schema g)).
Proof.
  intros Hg Hs.
  destruct (Event_cases g schema) as [(m & Hm & ->)|[Hm ->]]; [done|].
  intros name m. cbn. destruct (decide (name = "Event")) as [->|Hne].
  - rewrite lookup_insert_eq. intros [= <-]. cbn. lia.
  - rewrite lookup_insert_ne by done. intros Hm'.
    destruct (Hg name m Hm'). lia.
Qed.

Lemma loadModuleUnguarded_cases (g : Mongoose) :
  allocated g ->
  (exists m, models g !! "Event" = Some m /\
     loadModuleUnguarded g =
     (inl (OverwriteModelError "Event"),
      {| models := models g; nextObject := S (nextObject g) |})) \/
  (models g !! "Event" = None /\
   loadModuleUnguarded g =
   (inr {| modelName := "Event"; modelSchema := nextObject g;
           modelObject := S (nextObject g) |},
    {| models := <["Event" :=
                    {| modelName := "Event"; modelSchema := nextObject g;
                       modelObject := S (nextObject g) |}]> (models g);
       nextObject := S (S (nextObject g)) |})).
Proof.
  intros Hg.
  unfold loadModuleUnguarded, newSchema, eventModel, model, bind, getModels,
    newObject, setModel, ret, throw. cbn.
  destruct (models g !! "Event") as [m|] eqn:Hm.
  - left. exists m. split; [done|].
    destruct (Hg "Event" m Hm) as [Hs _].
    destruct (decide (modelSchema m = nextObject g)) as [E|_]; [lia|done].
  - right. split; [done|]. reflexivity.
Qed.

Lemma allocated_loadModuleUnguarded (g : Mongoose) :
  allocated g -> allocated (snd (loadModuleUnguarded g)).
Proof.
  intros Hg.
  destruct (loadModuleUnguarded_cases g Hg) as [(m & _ & ->)|[Hm ->]].
  - by apply allocated_newObject.
  - intros name m. cbn. destruct (decide (name = "Event")) as [->|Hne].
    + rewrite lookup_insert_eq. intros [= <-]. cbn. lia.
    + rewrite lookup_insert_ne by done. intros Hm'.
      destruct (Hg name m Hm'). lia.
Qed.

(** Every number a registered model refers to has been given out to an
    object.  This holds in a new process and is kept by the
    export, by an execution of the module and by an execution of the
    module without the guard, whether that one throws or not. *)
Theorem allocated_preserved (g : Mongoose) :
  allocated g ->
  allocated (snd (loadModule g)) /\
  allocated (snd (loadModuleUnguarded g)) /\
  (forall schema, schema < nextObject g -> allocated (snd (Event schema g))).
Proof.
  intros Hg. split; [|split].
  - change (loadModule g)
      with (Event (nextObject g)
              {| models := models g; nextObject := S (nextObject g) |}).
    apply allocated_Event; [by apply allocated_newObject|cbn; lia].
  - by apply allocated_loadModuleUnguarded.
  - intros schema Hs. by apply allocated_Event.
Qed.

Lemma allocated_empty : allocated emptyMongoose.
Proof. intros name m Hm. cbn in Hm. by rewrite lookup_empty in Hm. Qed.

Lemma allocated_preserved_witness :
  allocated (snd (loadModule emptyMongoose)) /\
  allocated (snd (loadModuleUnguarded emptyMongoose)) /\
  (forall schema, schema < nextObject emptyMongoose ->
     allocated (snd (Event schema emptyMongoose))).
Proof. exact (allocated_preserved emptyMongoose allocated_empty). Defined.

(** X10.  What the guard of line 194 is for.  Without it, executing the
    module while "Event" is registered throws OverwriteModelError and
    leaves the registry as it was, because the module has built a new
    schema; so of two executions in a row the second always throws. *)
Theorem unguarded_reload_throws (g : Mongoose) :
  allocated g ->
  (forall m, models g !! "Event" = Some m ->
     exists g1, loadModuleUnguarded g = (inl (OverwriteModelError "Event"), g1) /\
                models g1 = models g) /\
  (forall h g1, loadModuleUnguarded g = (inr h, g1) ->
     exists g2, loadModuleUnguarded g1 = (inl (OverwriteModelError "Event"), g2) /\
                models g2 = models g1 /\
                models g1 !! "Event" = Some h).
Proof.
  intros Hg. split.
  - intros m Hm.
    destruct (loadModuleUnguarded_cases g Hg) as [(m' & _ & ->)|[Hm' _]].
    + by eexists.
    + congruence.
  - intros h g1 Hl.
    assert (allocated g1) as Hg1.
    { pose proof (allocated_loadModuleUnguarded g Hg) as Ha.
      by rewrite Hl in Ha. }
    destruct (loadModuleUnguarded_cases g Hg) as [(m & _ & Hr)|[Hm Hr]];
      rewrite Hr in Hl; [discriminate|]. injection Hl as <- <-.
    destruct (loadModuleUnguarded_cases _ Hg1) as [(m' & Hm' & ->)|[Hm' _]].
    + eexists. split; [done|]. split; [done|]. cbn. apply lookup_insert_eq.
    + cbn in Hm'. by rewrite lookup_insert_eq in Hm'.
Qed.

Lemma unguarded_reload_throws_witness :
  exists g2,
    loadModuleUnguarded (snd (loadModuleUnguarded emptyMongoose))
    = (inl (OverwriteModelError "Event"), g2) /\
    models g2 = models (snd (loadModuleUnguarded emptyMongoose)) /\
    models (snd (loadModuleUnguarded emptyMongoose)) !! "Event"
    = Some {| modelName := "Event"; modelSchema := 0; modelObject := 1 |}.
Proof.
  exact (proj2 (unguarded_reload_throws emptyMongoose allocated_empty)
           {| modelName := "Event"; modelSchema := 0; modelObject := 1 |}
           (snd (loadModuleUnguarded emptyMongoose)) eq_refl).
Defined.
